(** * llm_translate: context building, retrying generation, the
      translate-and-edit pipeline and the file orchestrator.

    A shallow embedding of [src/kag_workflow.py], [src/llm_workflow.py],
    [src/translate_workflow.py] and [src/file_workflow.py].

    - A Python [str] is a list of Unicode code points ([list N]).
    - A Python [int] is a [Z]; a Python [float] is a binary64 [float].
    - The language model, the wall clock and the standard output are the
      effects of the program: they live in a [World] that every effectful
      function threads, together with a trace of what happened.
    - Exceptions are values of [result]. *)

From Stdlib Require Import ZArith NArith List String Ascii Floats Lia Bool.
From Stdlib Require Import DecimalString.
From stdpp Require Import gmap list.

Open Scope Z_scope.

(** ** Python strings *)

Module Py.

(** A string is the list of its code points. *)
Abbreviation str := (list N).

(** *** String literals

    The literals of the source are written as UTF-8 text and decoded once,
    when the constant is defined. *)

Fixpoint utf8_decode (bs : list N) : str :=
  match bs with
  | [] => []
  | b0 :: r0 =>
      if (b0 <? 0x80)%N then b0 :: utf8_decode r0
      else if (b0 <? 0xE0)%N then
        match r0 with
        | b1 :: r1 => ((b0 - 0xC0) * 64 + (b1 - 0x80))%N :: utf8_decode r1
        | _ => []
        end
      else if (b0 <? 0xF0)%N then
        match r0 with
        | b1 :: b2 :: r2 =>
            ((b0 - 0xE0) * 4096 + (b1 - 0x80) * 64 + (b2 - 0x80))%N
              :: utf8_decode r2
        | _ => []
        end
      else
        match r0 with
        | b1 :: b2 :: b3 :: r3 =>
            ((b0 - 0xF0) * 262144 + (b1 - 0x80) * 4096
             + (b2 - 0x80) * 64 + (b3 - 0x80))%N :: utf8_decode r3
        | _ => []
        end
  end.

Definition lit (s : string) : str :=
  utf8_decode (map N_of_ascii (list_ascii_of_string s)).

(** The line feed, ["\n"]. *)
Definition LF : N := 10%N.
Definition NL : str := [LF].

(** *** [str.isspace], [str.strip]

    The white space of [str.strip()] without argument: the code points for
    which [str.isspace] holds. *)
Definition isspace (c : N) : bool :=
  ((9 <=? c) && (c <=? 13) || (28 <=? c) && (c <=? 32)
   || (c =? 0x85) || (c =? 0xA0) || (c =? 0x1680)
   || (0x2000 <=? c) && (c <=? 0x200A)
   || (c =? 0x2028) || (c =? 0x2029) || (c =? 0x202F)
   || (c =? 0x205F) || (c =? 0x3000))%N.

Fixpoint lstrip (s : str) : str :=
  match s with
  | [] => []
  | c :: s' => if isspace c then lstrip s' else s
  end.

Definition rstrip (s : str) : str := rev (lstrip (rev s)).

Definition strip (s : str) : str := rstrip (lstrip s).

(** Truth value of a string: [bool(s)], false exactly for [""]. *)
Definition truthy (s : str) : bool :=
  match s with [] => false | _ :: _ => true end.

(** *** [str.split] on a one-character separator *)
Fixpoint split (sep : N) (s : str) : list str :=
  match s with
  | [] => [[]]
  | c :: s' =>
      if (c =? sep)%N then [] :: split sep s'
      else match split sep s' with
           | [] => [[c]]
           | w :: ws => (c :: w) :: ws
           end
  end.

(** *** [sep.join(parts)] *)
Fixpoint join (sep : str) (parts : list str) : str :=
  match parts with
  | [] => []
  | [p] => p
  | p :: ps => p ++ sep ++ join sep ps
  end.

(** *** [sub in s] *)
Fixpoint startswith (s p : str) : bool :=
  match p, s with
  | [], _ => true
  | _ :: _, [] => false
  | a :: p', b :: s' => (a =? b)%N && startswith s' p'
  end.

Fixpoint contains (s sub : str) : bool :=
  startswith s sub ||
  match s with
  | [] => false
  | _ :: s' => contains s' sub
  end.

(** *** [str(n)] for an [int] *)
Definition str_of_int (n : Z) : str :=
  lit (NilZero.string_of_int (Z.to_int n)).

(** *** [int -> float], as the arithmetic operators convert an [int]
    operand: the nearest binary64. Python raises [OverflowError] for an
    [int] beyond the range of binary64 (from [2^1024] on), where this
    conversion gives infinity; the conversion is applied to line indices
    and line counts, which are below the length of a list. *)
Definition float_of_int (n : Z) : float :=
  SF2Prim (binary_normalize prec emax n 0 false).

(** *** Exceptions *)
Inductive exn : Type :=
| IndexError
| KeyError (key : str)
| ZeroDivisionError.

Inductive result (A : Type) : Type :=
| Ok (a : A)
| Raise (e : exn).
Arguments Ok {A} a.
Arguments Raise {A} e.

(** *** [l[i]]: a negative index counts from the end. *)
Definition getitem {A} (l : list A) (i : Z) : result A :=
  let n := Z.of_nat (length l) in
  let j := if i <? 0 then i + n else i in
  if (0 <=? j) && (j <? n) then
    match l !! Z.to_nat j with
    | Some x => Ok x
    | None => Raise IndexError
    end
  else Raise IndexError.

(** *** [l[start:stop]]: negative bounds count from the end, and both are
    clamped to [0 .. len(l)]. *)
Definition slice_bound (n i : Z) : Z :=
  let j := if i <? 0 then i + n else i in
  if j <? 0 then 0 else if n <? j then n else j.

Definition slice {A} (l : list A) (start stop : Z) : list A :=
  let n := Z.of_nat (length l) in
  let a := slice_bound n start in
  let b := slice_bound n stop in
  take (Z.to_nat (b - a)) (drop (Z.to_nat a) l).

(** *** [a // b] on [int]: floor division. *)
Definition floordiv (a b : Z) : result Z :=
  if b =? 0 then Raise ZeroDivisionError else Ok (a / b).

End Py.
Export Py.

(** ** Effects: the model, the clock and the standard output *)

Module Eff.

(** The language model behind [LlmWorkflow]: tokenizer, quantized model and
    decoding. It is outside the program; all the program sees is the decoded
    text of one sampling run, which may differ from call to call, hence the
    state. A run is taken to return: an exception inside the model would
    leave the program, which catches none. *)
Class Backend : Type := {
  model_state : Type;
  model_generate : str -> Z -> float -> model_state -> str * model_state
}.

(** A fragment of a printed f-string: text, or a float under the format
    [:.1f]. *)
Inductive piece : Type :=
| Txt (s : str)
| Fix1 (x : float).

(** What the program did, in order. *)
Inductive event : Type :=
| Print (line : list piece)
| Generate (prompt : str) (max_tokens : Z) (temperature : float)
           (response : str).

Section WithBackend.
Context {B : Backend}.

Record World : Type := {
  model : model_state;
  clock : nat -> float;
  ticks : nat;
  trace : list event
}.

Definition M (A : Type) : Type := World -> result A * World.

Definition ret {A} (a : A) : M A := fun w => (Ok a, w).

Definition raise {A} (e : exn) : M A := fun w => (Raise e, w).

Definition bind {A C} (m : M A) (k : A -> M C) : M C :=
  fun w =>
    match m w with
    | (Ok a, w') => k a w'
    | (Raise e, w') => (Raise e, w')
    end.

Definition lift {A} (r : result A) : M A := fun w => (r, w).

(** [time.time()] *)
Definition time_time : M float :=
  fun w =>
    (Ok (clock w (ticks w)),
     {| model := model w; clock := clock w; ticks := S (ticks w);
        trace := trace w |}).

(** [print(...)] *)
Definition print (line : list piece) : M unit :=
  fun w =>
    (Ok tt,
     {| model := model w; clock := clock w; ticks := ticks w;
        trace := trace w ++ [Print line] |}).

End WithBackend.

Definition result_bind {A C} (r : result A) (k : A -> result C) : result C :=
  match r with
  | Ok a => k a
  | Raise e => Raise e
  end.

End Eff.
Export Eff.

Declare Scope py_scope.
Delimit Scope py_scope with py.
Notation "x <- m ;; k" := (bind m (fun x => k))
  (at level 100, m at next level, right associativity) : py_scope.
Notation "m ;;; k" := (bind m (fun _ => k))
  (at level 100, right associativity) : py_scope.
Notation "x <-? r ;; k" := (result_bind r (fun x => k))
  (at level 100, r at next level, right associativity) : py_scope.
Open Scope py_scope.

(** ** [src/kag_workflow.py] *)

Module Kag.

(** A record of [kag_db.json]. *)
Record Speaker : Type := {
  description : str;
  gender : str
}.

(** [names_map] is a [dict] whose iteration order shows in the output: the
    list of its items, in insertion order. *)
Record KagWorkflow : Type := {
  window_size : Z;
  names_map : list (str * str);
  kag_db : gmap str Speaker
}.

Definition SCENE_HEADER : str :=
  Eval vm_compute in lit "Контекст сцены:" ++ NL.

Definition NARRATION : str :=
  Eval vm_compute in
    lit "не прямая речь, описание мира вокруг или действий персонажей".

Definition NAMES_HEADER : str :=
  Eval vm_compute in NL ++ lit "Словарь имён:" ++ NL.

Definition SPEAKER_LABEL : str :=
  Eval vm_compute in NL ++ lit "Описание говорящего: ".

Definition _build_context_text_around
    (self : KagWorkflow) (all_lines : list str) (line_num : Z) : str :=
  let start := Z.max 0 (line_num - window_size self) in
  let end_ := Z.min (Z.of_nat (length all_lines))
                    (line_num + window_size self + 1) in
  let result := slice all_lines start end_ in
  SCENE_HEADER ++ join [] result.

Definition _build_context_kag_description
    (self : KagWorkflow) (prev_line : str) : str :=
  match kag_db self !! prev_line with
  | Some person =>
      lit "прямая речь, " ++ description person
        ++ lit ", пол: " ++ gender person
  | None => NARRATION
  end.

(** [d[k] = v] on a [dict] kept as its item list: an existing key keeps its
    place, a new key goes last. *)
Fixpoint dict_set (d : list (str * str)) (k v : str) : list (str * str) :=
  match d with
  | [] => [(k, v)]
  | (k', v') :: d' =>
      if decide (k' = k) then (k, v) :: d' else (k', v') :: dict_set d' k v
  end.

(** The comprehension
    [{jp: ru for jp, ru in names_map.items() if jp in search_line}]. *)
Definition relevant_names
    (self : KagWorkflow) (search_line : str) : list (str * str) :=
  fold_left
    (fun acc item =>
       if contains search_line (fst item)
       then dict_set acc (fst item) (snd item) else acc)
    (names_map self) [].

Definition _build_context_names_dict
    (self : KagWorkflow) (search_line : str) : str :=
  let relevant := relevant_names self search_line in
  match relevant with
  | [] => []
  | _ :: _ =>
      let names_block :=
        NAMES_HEADER
          ++ join NL (map (fun item => fst item ++ lit " = " ++ snd item)
                          relevant) in
      names_block ++ NL
  end.

(** [all_lines[line_num - 1].strip() if line_num > 0 else ""] *)
Definition prev_line_of (all_lines : list str) (line_num : Z) : result str :=
  if line_num >? 0 then
    x <-? getitem all_lines (line_num - 1) ;; Ok (strip x)
  else Ok [].

Definition build_context
    (self : KagWorkflow) (all_lines : list str) (line_num : Z) : result str :=
  search_line <-? getitem all_lines line_num ;;
  prev_line <-? prev_line_of all_lines line_num ;;
  let text_around := _build_context_text_around self all_lines line_num in
  let names_dictionary := _build_context_names_dict self search_line in
  let kag_description := _build_context_kag_description self prev_line in
  if negb (truthy text_around) then Ok []
  else Ok (NL ++ text_around ++ names_dictionary
              ++ SPEAKER_LABEL ++ kag_description ++ NL).

End Kag.
Export Kag.

(** ** [src/llm_workflow.py] *)

Module Llm.

Section WithBackend.
Context {B : Backend}.

(** One sampling run of the model, stripped, as [generate_response] returns
    it. The call is recorded in the trace. *)
Definition generate_response
    (prompt : str) (max_tokens : Z) (temperature : float) : M str :=
  fun w =>
    let (raw, m') := model_generate prompt max_tokens temperature (model w) in
    let response := strip raw in
    (Ok response,
     {| model := m'; clock := clock w; ticks := ticks w;
        trace := trace w ++ [Generate prompt max_tokens temperature response] |}).

Definition SENTINEL : str := Eval vm_compute in lit "no response from llm".

(** [split("\n")[0]]; [split] never returns an empty list. *)
Definition first_line (s : str) : str :=
  match split LF s with
  | x :: _ => x
  | [] => []
  end.

(** [f"Попытка номер {i+1}\n{prompt}"] *)
Definition with_attempt_marker (i : Z) (prompt : str) : str :=
  lit "Попытка номер " ++ str_of_int (i + 1) ++ NL ++ prompt.

(** The body of [for i in range(retry_count)], with [n] iterations left. *)
Fixpoint retry_loop (n : nat) (i : Z) (prompt : str) (max_tokens : Z)
    (temperature : float) (resp_name : str) : M str :=
  match n with
  | O => ret SENTINEL
  | S n' =>
      raw <- generate_response prompt max_tokens temperature ;;
      let response := strip (first_line raw) in
      print [Txt (resp_name ++ lit ": " ++ response)] ;;;
      if truthy response then ret response
      else retry_loop n' (i + 1) (with_attempt_marker i prompt)
                      max_tokens temperature resp_name
  end.

Definition generate_with_retry (prompt : str) (max_tokens : Z)
    (temperature : float) (retry_count : Z) (resp_name : str) : M str :=
  retry_loop (Z.to_nat retry_count) 0 prompt max_tokens temperature resp_name.

End WithBackend.

(** Default of the parameter [retry_count]. *)
Definition DEFAULT_RETRY_COUNT : Z := 10.

End Llm.
Export Llm.

(** ** [src/translate_workflow.py] *)

Module Translate.

Record TranslateWorkflow : Type := {
  max_tokens : Z;
  temperature : float;
  show_prompt : bool
}.

(** The binary64 nearest to [0.3], the default [temperature]. *)
Definition DEFAULT_TEMPERATURE : float := 0x1.3333333333333p-2%float.

(** [TranslateWorkflow(llm, show_prompt=...)] with the defaults of
    [__init__]. *)
Definition TranslateWorkflow_init (show_prompt : bool) : TranslateWorkflow :=
  {| max_tokens := 256; temperature := DEFAULT_TEMPERATURE;
     show_prompt := show_prompt |}.

Definition TRANSLATE_HEAD : str :=
  Eval vm_compute in
    (lit "Ты — литературный переводчик. Переведи на русский язык."
       ++ NL ++ lit "Фразы внутри 「」 — это прямая речь, переводи их как прямую речь.  "
       ++ NL ++ lit "Учитывай контекст вокруг текста и описание персонажей для правильной передачи смысла. "
       ++ NL ++ lit "Если в тексте нет японского, тогда **повтори его дословно**."
       ++ NL ++ lit "Вывод строго: одна строка перевода, без комментариев."
       ++ NL).

Definition TRANSLATE_MID : str :=
  Eval vm_compute in
    (NL ++ lit "Пример перевода:"
       ++ NL ++ lit "Японский: アンナは毎あさ七時に起きます。"
       ++ NL ++ lit "Русский: Анна встает в семь утра каждое утро."
       ++ NL ++ []
       ++ NL ++ lit "Японский: ......"
       ++ NL ++ lit "Русский: ......"
       ++ NL ++ []
       ++ NL ++ lit "Переведи:"
       ++ NL ++ lit "Японский: ").

Definition TRANSLATE_TAIL : str :=
  Eval vm_compute in (NL ++ lit "Русский:").

Definition translate_prompt (context line : str) : str :=
  TRANSLATE_HEAD ++ context ++ TRANSLATE_MID ++ line ++ TRANSLATE_TAIL.

Definition EDIT_HEAD : str :=
  Eval vm_compute in
    (lit "Ты — литературный редактор. "
       ++ NL ++ lit "Твоя задача — сделать исходный русский текст грамматически правильным, легким для чтения и убрать сложные обороты. "
       ++ NL ++ lit "Сохраняй точный смысл оригинала, не добавляй деталей или эмоций, которых там нет."
       ++ NL ++ lit "Если текст не требует изменений, **повтори его дословно** — **включая все знаки препинания, пробелы и оформление**."
       ++ NL ++ []
       ++ NL ++ lit "Вывод: одна строка, без комментариев."
       ++ NL ++ []
       ++ NL ++ lit "Примеры:"
       ++ NL ++ lit "Текст: Ваа, свет луны отражается в тихой воде пруда, делая ночь казаться ещё более долгой."
       ++ NL ++ lit "Вывод: Вау, лунный свет, отражаясь в тихой воде пруда, делал ночь бесконечно долгой."
       ++ NL ++ []
       ++ NL ++ lit "Текст: ......"
       ++ NL ++ lit "Вывод: ......"
       ++ NL ++ []
       ++ NL ++ lit "Текст: ").

Definition EDIT_TAIL : str :=
  Eval vm_compute in (NL ++ lit "Вывод:").

Definition edit_prompt (line : str) : str :=
  EDIT_HEAD ++ line ++ EDIT_TAIL.

Section WithBackend.
Context {B : Backend}.

Definition _print_prompt
    (self : TranslateWorkflow) (prompt label : str) : M unit :=
  if show_prompt self then
    let sep := repeat 61%N 40 in
    print [Txt (sep ++ label ++ sep)] ;;;
    print [Txt prompt] ;;;
    print [Txt (sep ++ label ++ lit " END" ++ sep)]
  else ret tt.

Definition _edit_with_llm (self : TranslateWorkflow) (line : str) : M str :=
  let prompt := edit_prompt line in
  _print_prompt self prompt (lit "EDIT PROMPT") ;;;
  generate_with_retry prompt (max_tokens self) (temperature self)
                      DEFAULT_RETRY_COUNT (lit "edit").

Definition _translate_with_llm
    (self : TranslateWorkflow) (line context : str) : M str :=
  print [Txt (lit "original: " ++ line)] ;;;
  let prompt := translate_prompt context line in
  _print_prompt self prompt (lit "TRANSLATE PROMPT") ;;;
  raw_translation <-
    generate_with_retry prompt (max_tokens self) (temperature self)
                        DEFAULT_RETRY_COUNT (lit "translation") ;;
  _edit_with_llm self raw_translation.

Definition run_translate
    (self : TranslateWorkflow) (line context : str) : M str :=
  start <- time_time ;;
  translated <- _translate_with_llm self (strip line) context ;;
  now <- time_time ;;
  print [Txt (lit "done in "); Fix1 (now - start); Txt (lit "s" ++ NL)] ;;;
  ret translated.

End WithBackend.

End Translate.
Export Translate.

(** ** [src/file_workflow.py] *)

Module File.

(** [self.file_data]: a [dict] that is empty until [translate_one_file]
    fills its three keys. *)
Record FileData : Type := {
  start_file_translation : option float;
  all_lines : option (list str);
  all_lines_len : option Z
}.

Definition file_data_empty : FileData :=
  {| start_file_translation := None; all_lines := None;
     all_lines_len := None |}.

Record FileWorkflow : Type := {
  kag : KagWorkflow;
  kag_enabled : bool;
  translate : TranslateWorkflow;
  file_data : FileData
}.

(** [FileWorkflow(llm, show_prompts, kag_enabled)]; [names] and [db] are the
    contents of [names.json] and [kag_db.json] that [KagWorkflow()] loads. *)
Definition FileWorkflow_init (names : list (str * str))
    (db : gmap str Speaker) (show_prompts kag_enabled : bool) : FileWorkflow :=
  {| kag := {| window_size := 4; names_map := names; kag_db := db |};
     kag_enabled := kag_enabled;
     translate := TranslateWorkflow_init show_prompts;
     file_data := file_data_empty |}.

Section WithBackend.
Context {B : Backend}.

(** [self.file_data[key]] *)
Definition file_data_get {A} (key : string) (field : option A) : M A :=
  match field with
  | Some v => ret v
  | None => raise (KeyError (lit key))
  end.

Definition _print_progress (self : FileWorkflow) (line_num : Z) : M unit :=
  now <- time_time ;;
  start <- file_data_get "start_file_translation"
             (start_file_translation (file_data self)) ;;
  let elapsed := (now - start)%float in
  total <- file_data_get "all_lines_len" (all_lines_len (file_data self)) ;;
  let eta :=
    if line_num >? 0 then
      (elapsed / float_of_int line_num * float_of_int total - elapsed)%float
    else float_of_int 0 in
  percent <- lift (floordiv (line_num * 100) total) ;;
  print [Txt (lit "Working with line " ++ str_of_int line_num ++ lit "/"
              ++ str_of_int total ++ lit " (" ++ str_of_int percent
              ++ lit "%) total time: ");
         Fix1 (elapsed / float_of_int 60);
         Txt (lit " min, ETA: ");
         Fix1 (eta / float_of_int 60);
         Txt (lit " min")].

Definition _translate_line
    (self : FileWorkflow) (line_num : Z) (line : str) : M str :=
  _print_progress self line_num ;;;
  context <-
    (if kag_enabled self then
       lines <- file_data_get "all_lines" (all_lines (file_data self)) ;;
       lift (build_context (kag self) lines line_num)
     else ret []) ;;
  run_translate (translate self) line context.

(** The loop [for line_num, line in enumerate(all_lines)], from index
    [line_num] on, appending to [result]. *)
Fixpoint translate_lines_from (self : FileWorkflow) (line_num : Z)
    (rest : list str) (result : list str) : M (list str) :=
  match rest with
  | [] => ret result
  | line :: rest' =>
      if truthy (strip line) then
        translated <- _translate_line self line_num line ;;
        translate_lines_from self (line_num + 1) rest'
                             (result ++ [translated ++ NL])
      else
        translate_lines_from self (line_num + 1) rest' (result ++ [line])
  end.

Definition _segregate_and_translate_lines
    (self : FileWorkflow) (all_lines : list str) : M (list str) :=
  translate_lines_from self 0 all_lines [].

Definition with_file_data (self : FileWorkflow) (d : FileData) : FileWorkflow :=
  {| kag := kag self; kag_enabled := kag_enabled self;
     translate := translate self; file_data := d |}.

(** [translate_one_file], between reading the input with [readlines()] and
    writing the output with [writelines(result)]: from the lines read to the
    lines written. *)
Definition translate_one_file
    (self : FileWorkflow) (lines_read : list str) : M (list str) :=
  start <- time_time ;;
  let self' :=
    with_file_data self
      {| start_file_translation := Some start;
         all_lines := Some lines_read;
         all_lines_len := Some (Z.of_nat (length lines_read)) |} in
  result <- _segregate_and_translate_lines self' lines_read ;;
  print [Txt (lit "Translation done successfully! (100%)")] ;;;
  now <- time_time ;;
  start' <- file_data_get "start_file_translation"
              (start_file_translation (file_data self')) ;;
  let elapsed := (now - start')%float in
  print [Txt (lit "done in "); Fix1 (elapsed / float_of_int 60);
         Txt (lit " min")] ;;;
  ret result.

End WithBackend.

End File.
Export File.

(** ** A scripted model for tests

    The state is the list of texts still to be returned, whatever the
    prompt; once the list is used up every answer is empty. *)

Module Stub.

#[export] Instance scripted : Backend := {|
  model_state := list str;
  model_generate := fun _ _ _ st =>
    match st with
    | [] => ([], [])
    | r :: st' => (r, st')
    end
|}.

Definition world (answers : list str) : World :=
  {| model := answers : @model_state scripted;
     clock := fun n => float_of_int (Z.of_nat n);
     ticks := O; trace := [] |}.

End Stub.

(** ** Sample data for the examples *)

Module Sample.

Definition anna : Speaker :=
  {| description := lit "Анна, студентка"; gender := lit "женский" |}.

Definition names : list (str * str) :=
  [(lit "アンナ", lit "Анна"); (lit "ユキ", lit "Юки")].

(** A workflow as [KagWorkflow()] builds it, window size 4. *)
Definition kag4 : KagWorkflow :=
  {| window_size := 4; names_map := names;
     kag_db := {[ lit "[アンナ]" := anna ]} |}.

(** A speaker database with an entry under the empty string. *)
Definition kag_empty_key : KagWorkflow :=
  {| window_size := 4; names_map := names;
     kag_db := {[ [] := anna ]} |}.

(** [KagWorkflow(window_size=-1)] *)
Definition kag_negative_window : KagWorkflow :=
  {| window_size := -1; names_map := names;
     kag_db := {[ lit "[アンナ]" := anna ]} |}.

Definition script : list str :=
  [lit "[アンナ]" ++ NL; lit "「ユキ、ここですか。」" ++ NL; NL;
   lit "静かな夜だった。" ++ NL].

(** [FileWorkflow(llm, kag_enabled=True)] on the sample data. *)
Definition workflow : FileWorkflow :=
  FileWorkflow_init names {[ lit "[アンナ]" := anna ]} false true.

End Sample.

(** ** Reading a trace *)

Definition is_generate (e : event) : bool :=
  match e with
  | Generate _ _ _ _ => true
  | Print _ => false
  end.

(** The calls of the model in a trace. *)
Definition generations (tr : list event) : list event :=
  List.filter is_generate tr.
(** ** Vocabulary of the statements *)

(** [sub] occurs in [s] as a literal substring. *)
Definition Substring (sub s : str) : Prop :=
  exists pre post, s = pre ++ sub ++ post.

(** What the retry wrapper keeps of a response: the text before the first
    line break, stripped. *)
Definition clean (response : str) : str := strip (first_line response).

(** The calls of the model made for the successive [answers], the first with
    [prompt] and attempt number [i]: each retry puts its marker in front. *)
Fixpoint attempts (i : Z) (prompt : str) (max_tokens : Z) (temperature : float)
    (answers : list str) : list event :=
  match answers with
  | [] => []
  | a :: rest =>
      Generate prompt max_tokens temperature a
        :: attempts (i + 1) (with_attempt_marker i prompt)
                    max_tokens temperature rest
  end.

(** The same with the line printed after each call. *)
Fixpoint attempt_trace (i : Z) (prompt : str) (max_tokens : Z)
    (temperature : float) (resp_name : str) (answers : list str)
    : list event :=
  match answers with
  | [] => []
  | a :: rest =>
      Generate prompt max_tokens temperature a
        :: Print [Txt (resp_name ++ lit ": " ++ clean a)]
        :: attempt_trace (i + 1) (with_attempt_marker i prompt)
                         max_tokens temperature resp_name rest
  end.

(** The first answer that is not empty once cleaned, or the sentinel. *)
Fixpoint retry_result (answers : list str) : str :=
  match answers with
  | [] => SENTINEL
  | a :: rest => if truthy (clean a) then clean a else retry_result rest
  end.

(** [answers] is a possible run of at most [n] attempts: failures, then
    either a success or exhaustion after exactly [n] failures. *)
Definition retry_shape (n : nat) (answers : list str) : Prop :=
  (length answers <= n)%nat /\
  ((exists failed a,
       answers = failed ++ [a]
       /\ Forall (fun x => clean x = []) failed /\ clean a <> [])
   \/ (length answers = n /\ Forall (fun x => clean x = []) answers)).

Section Returns.
Context {B : Backend}.

(** [m], started in [w], returns [a] in [w'], having added [ev] to the
    trace; the clock is the same and was only read forward. *)
Definition returns {A} (m : M A) (w : World) (a : A) (ev : list event)
    (w' : World) : Prop :=
  m w = (Ok a, w') /\ trace w' = trace w ++ ev
  /\ clock w' = clock w /\ (ticks w <= ticks w')%nat.

End Returns.

(** *** Progress reports *)

Definition PROGRESS_PREFIX : str := Eval vm_compute in lit "Working with line ".

Definition is_progress (e : event) : bool :=
  match e with
  | Print (Txt s :: _) => startswith s PROGRESS_PREFIX
  | _ => false
  end.

Definition progress_reports (tr : list event) : list event :=
  List.filter is_progress tr.

(** Percentage complete: integer floor division. *)
Definition progress_percent (lines_processed total : Z) : Z :=
  lines_processed * 100 / total.

(** Linear estimate of the time remaining; zero before the first line. *)
Definition progress_eta (elapsed : float) (lines_processed total : Z) : float :=
  if lines_processed =? 0 then 0%float
  else (elapsed / float_of_int lines_processed * float_of_int total
        - elapsed)%float.

(** The report: position, percentage, elapsed minutes and estimated
    minutes remaining. *)
Definition progress_line (total lines_processed : Z) (elapsed : float)
    : list piece :=
  [Txt (lit "Working with line " ++ str_of_int lines_processed ++ lit "/"
        ++ str_of_int total ++ lit " ("
        ++ str_of_int (progress_percent lines_processed total)
        ++ lit "%) total time: ");
   Fix1 (elapsed / 60);
   Txt (lit " min, ETA: ");
   Fix1 (progress_eta elapsed lines_processed total / 60);
   Txt (lit " min")].

(** *** The orchestrator *)

(** The context handed to the pipeline for the line at index [i]. *)
Definition context_for (self : FileWorkflow) (lines : list str) (i : Z)
    : result str :=
  if kag_enabled self then build_context (kag self) lines i else Ok [].

Section Orchestrator.
Context {B : Backend}.

(** What the orchestrator, started in [w0] on [lines], does with the line at
    index [i]: [out] is the output line and [seg] the events. A blank line
    is copied and leaves no event. Any other line is first announced by a
    progress report, with the time elapsed at some later reading [k] of the
    clock, and then sent through the pipeline, which calls the model and
    prints no report; the output is the result, which has no line break,
    and a line terminator. *)
Definition line_step (self : FileWorkflow) (lines : list str) (w0 : World)
    (i : Z) (line out : str) (seg : list event) : Prop :=
  if truthy (strip line) then
    exists (ctx r : str) (w1 w2 : World) (k : nat) (ev : list event),
      context_for self lines i = Ok ctx
      /\ run_translate (translate self) line ctx w1 = (Ok r, w2)
      /\ ~ In LF r /\ out = r ++ NL
      /\ (ticks w0 < k)%nat
      /\ seg = Print (progress_line (Z.of_nat (length lines)) i
                        (clock w0 k - clock w0 (ticks w0))) :: ev
      /\ progress_reports ev = [] /\ generations ev <> []
  else out = line /\ seg = [].

Inductive lines_processed (self : FileWorkflow) (lines : list str)
    (w0 : World) : Z -> list str -> list str -> list (list event) -> Prop :=
| lines_processed_nil i : lines_processed self lines w0 i [] [] []
| lines_processed_cons i line rest out outs seg segs :
    line_step self lines w0 i line out seg ->
    lines_processed self lines w0 (i + 1) rest outs segs ->
    lines_processed self lines w0 i (line :: rest) (out :: outs) (seg :: segs).

End Orchestrator.

(** ** More sample data *)

Module Cases.

(** A window of one line on each side. *)
Definition kag_one_line : KagWorkflow :=
  {| window_size := 1; names_map := Sample.names;
     kag_db := {[ lit "[アンナ]" := Sample.anna ]} |}.

(** A speaker database keyed by the raw line, line terminator included. *)
Definition kag_raw_key : KagWorkflow :=
  {| window_size := 4; names_map := Sample.names;
     kag_db := {[ lit "[アンナ]" ++ NL := Sample.anna ]} |}.

(** A name dictionary with an entry under the empty string. *)
Definition kag_empty_name : KagWorkflow :=
  {| window_size := 4;
     names_map := [(lit "アンナ", lit "Анна"); ([], lit "?")];
     kag_db := ∅ |}.

End Cases.

(** *** Vocabulary of the further properties *)

(** [prompt] under [k] attempt markers, the newest in front. *)
Fixpoint stacked_markers (k : nat) (prompt : str) : str :=
  match k with
  | O => prompt
  | S k' => with_attempt_marker (Z.of_nat k') (stacked_markers k' prompt)
  end.

(** The same workflow over another speaker database. *)
Definition with_kag_db (self : KagWorkflow) (db : gmap str Speaker)
    : KagWorkflow :=
  {| window_size := window_size self; names_map := names_map self;
     kag_db := db |}.

(** The same orchestrator over another context builder. *)
Definition with_kag (self : FileWorkflow) (k : KagWorkflow) : FileWorkflow :=
  {| kag := k; kag_enabled := kag_enabled self; translate := translate self;
     file_data := file_data self |}.

(** The number of lines that are not blank. *)
Definition nonblank_count (lines : list str) : nat :=
  length (List.filter (fun line => truthy (strip line)) lines).

Section FurtherVocabulary.
Context {B : Backend}.

(** Two worlds that differ at most in what was printed. *)
Definition same_run (w1 w2 : World) : Prop :=
  model w1 = model w2 /\ clock w1 = clock w2 /\ ticks w1 = ticks w2
  /\ generations (trace w1) = generations (trace w2).

(** Two computations that, print-outs apart, do the same. *)
Definition agree {A} (m1 m2 : M A) : Prop :=
  forall w1 w2, same_run w1 w2 ->
    fst (m1 w1) = fst (m2 w2) /\ same_run (snd (m1 w1)) (snd (m2 w2)).

(** A computation that only prints. *)
Definition silent (m : M unit) : Prop :=
  forall w, fst (m w) = Ok tt /\ same_run (snd (m w)) w.

(** The calls of the model made for the line at index [i], and the output
    line: none for a blank line, which is copied; otherwise the attempts of
    the translate stage, on the prompt built from the context of the line
    and the stripped line, then those of the edit stage on the translation. *)
Definition line_calls (self : FileWorkflow) (lines : list str) (i : Z)
    (line out : str) (calls : list event) : Prop :=
  if truthy (strip line) then
    exists (ctx : str) (answers1 answers2 : list str),
      context_for self lines i = Ok ctx
      /\ calls
         = attempts 0 (translate_prompt ctx (strip line))
                    (max_tokens (translate self))
                    (temperature (translate self)) answers1
           ++ attempts 0 (edit_prompt (retry_result answers1))
                       (max_tokens (translate self))
                       (temperature (translate self)) answers2
      /\ retry_shape 10 answers1 /\ retry_shape 10 answers2
      /\ out = retry_result answers2 ++ NL
  else out = line /\ calls = [].

Inductive lines_called (self : FileWorkflow) (lines : list str)
    : Z -> list str -> list str -> list (list event) -> Prop :=
| lines_called_nil i : lines_called self lines i [] [] []
| lines_called_cons i line rest out outs calls callss :
    line_calls self lines i line out calls ->
    lines_called self lines (i + 1) rest outs callss ->
    lines_called self lines i (line :: rest) (out :: outs) (calls :: callss).

End FurtherVocabulary.

(** * Properties *)

Example lit_cyrillic : lit "Привет" = [1055; 1088; 1080; 1074; 1077; 1090]%N.
Proof. reflexivity. Qed.

Example lit_kana : lit "「あ」" = [12300; 12354; 12301]%N.
Proof. reflexivity. Qed.

Example strip_keeps_inner_cr : strip (lit "a" ++ [13; 98; 11]%N) = [97; 13; 98]%N.
Proof. reflexivity. Qed.

Example split_trailing : split LF (lit "x" ++ NL) = [lit "x"; []].
Proof. reflexivity. Qed.

Example slice_negative_stop :
  slice [0; 1; 2; 3; 4; 5; 6; 7; 8; 9] 7 (-2) = [7].
Proof. reflexivity. Qed.

Example str_of_int_examples :
  str_of_int 0 = lit "0" /\ str_of_int 10 = lit "10" /\ str_of_int (-5) = lit "-5".
Proof. repeat split; reflexivity. Qed.

Example floordiv_floor : floordiv (-7) 2 = Ok (-4) /\ floordiv 7 (-2) = Ok (-4).
Proof. split; reflexivity. Qed.

(** ** Facts about the string operations *)

Section StringFacts.

Lemma lstrip_head (s : str) (c : N) (t : str) :
  lstrip s = c :: t -> isspace c = false.
Proof.
  induction s as [|a s IH]; simpl; [discriminate|].
  destruct (isspace a) eqn:Ha; [exact IH|].
  intros [= <- _]. exact Ha.
Qed.

Lemma lstrip_fixed (c : N) (t : str) :
  isspace c = false -> lstrip (c :: t) = c :: t.
Proof. intros H. simpl. now rewrite H. Qed.

Lemma lstrip_idem (s : str) : lstrip (lstrip s) = lstrip s.
Proof.
  destruct (lstrip s) as [|c t] eqn:E; [reflexivity|].
  apply lstrip_fixed. exact (lstrip_head _ _ _ E).
Qed.

Lemma lstrip_snoc (u : str) (c : N) :
  isspace c = false -> lstrip (u ++ [c]) = lstrip u ++ [c].
Proof.
  intros H. induction u as [|a u IH]; simpl.
  - now rewrite H.
  - destruct (isspace a); [exact IH | reflexivity].
Qed.

Lemma rstrip_cons (c : N) (t : str) :
  isspace c = false -> rstrip (c :: t) = c :: rstrip t.
Proof.
  intros H. unfold rstrip. simpl rev at 2.
  rewrite (lstrip_snoc _ _ H), rev_app_distr. reflexivity.
Qed.

Lemma rstrip_idem (s : str) : rstrip (rstrip s) = rstrip s.
Proof. unfold rstrip. now rewrite rev_involutive, lstrip_idem. Qed.

Lemma strip_idem (s : str) : strip (strip s) = strip s.
Proof.
  unfold strip. destruct (lstrip s) as [|c t] eqn:E; [reflexivity|].
  pose proof (lstrip_head _ _ _ E) as Hc.
  rewrite (rstrip_cons _ _ Hc), (lstrip_fixed _ _ Hc), <- (rstrip_cons _ _ Hc).
  apply rstrip_idem.
Qed.

Lemma lstrip_In (c : N) (s : str) : In c (lstrip s) -> In c s.
Proof.
  induction s as [|a s IH]; simpl; [tauto|].
  destruct (isspace a); simpl; auto.
Qed.

Lemma strip_In (c : N) (s : str) : In c (strip s) -> In c s.
Proof.
  unfold strip, rstrip. intros H.
  apply lstrip_In, in_rev. apply lstrip_In. now apply in_rev.
Qed.

Lemma split_not_nil (sep : N) (s : str) : split sep s <> [].
Proof.
  induction s as [|c s IH]; simpl; [discriminate|].
  destruct (c =? sep)%N; [discriminate|].
  destruct (split sep s); [contradiction | discriminate].
Qed.

Lemma split_head_no_sep (sep : N) (s w : str) (ws : list str) :
  split sep s = w :: ws -> ~ In sep w.
Proof.
  revert w ws. induction s as [|c s IH]; simpl; intros w ws.
  - intros [= <- _]. tauto.
  - destruct (N.eqb_spec c sep) as [->|Hne].
    + intros [= <- _]. tauto.
    + destruct (split sep s) as [|w' ws'] eqn:E.
      * intros [= <- _]. simpl. intros [?|[]]. congruence.
      * intros [= <- _]. simpl. intros [?|Hin]; [congruence|].
        exact (IH _ _ eq_refl Hin).
Qed.

Lemma first_line_no_LF (s : str) : ~ In LF (first_line s).
Proof.
  unfold first_line. destruct (split LF s) as [|w ws] eqn:E; [tauto|].
  exact (split_head_no_sep _ _ _ _ E).
Qed.

Lemma startswith_spec (s p : str) :
  startswith s p = true <-> exists post, s = p ++ post.
Proof.
  revert s. induction p as [|a p IH]; intros s; simpl.
  - split; [intros _; now exists s | destruct s; reflexivity].
  - destruct s as [|b s].
    + split; [discriminate | intros [post H]; discriminate].
    + simpl. destruct (a =? b)%N eqn:E; simpl.
      * apply N.eqb_eq in E as ->. rewrite IH. split.
        -- intros [post ->]. now exists post.
        -- intros [post [= ->]]. now exists post.
      * apply N.eqb_neq in E.
        split; [discriminate | intros [post [= -> _]]; congruence].
Qed.

Lemma contains_cons (c : N) (s sub : str) :
  contains (c :: s) sub = startswith (c :: s) sub || contains s sub.
Proof. reflexivity. Qed.

Lemma contains_spec (s sub : str) :
  contains s sub = true <-> Substring sub s.
Proof.
  unfold Substring. induction s as [|c s IH].
  - change (contains [] sub) with (startswith [] sub || false).
    rewrite orb_false_r, startswith_spec. split.
    + intros [post H]. now exists [], post.
    + intros [pre [post H]]. destruct pre; simpl in H.
      * now exists post.
      * discriminate.
  - rewrite contains_cons, orb_true_iff, startswith_spec, IH. split.
    + intros [[post H]|[pre [post H]]].
      * now exists [], post.
      * exists (c :: pre), post. simpl. now rewrite H.
    + intros [[|a pre] [post H]]; simpl in H.
      * left. now exists post.
      * right. injection H as _ H. now exists pre, post.
Qed.

Lemma join_empty_sep (parts : list str) : join [] parts = concat parts.
Proof.
  induction parts as [|p ps IH]; [reflexivity|].
  simpl. destruct ps as [|q ps]; [now rewrite app_nil_r|].
  simpl in IH |- *. now rewrite IH.
Qed.

End StringFacts.

(** ** Facts about indexing and slicing *)

Section ListFacts.
Context {A : Type}.
Implicit Types (l : list A) (i : Z).

Lemma getitem_in_range l i :
  0 <= i < Z.of_nat (length l) ->
  exists x, l !! Z.to_nat i = Some x /\ getitem l i = Ok x.
Proof.
  intros H. unfold getitem.
  destruct (Z.ltb_spec i 0); [lia|].
  destruct (Z.leb_spec 0 i); [|lia].
  destruct (Z.ltb_spec i (Z.of_nat (length l))); [|lia]. simpl.
  destruct (l !! Z.to_nat i) as [x|] eqn:E; [now exists x|].
  apply lookup_ge_None in E. lia.
Qed.

Lemma getitem_raises_iff l i :
  getitem l i = Raise IndexError <->
  i < - Z.of_nat (length l) \/ Z.of_nat (length l) <= i.
Proof.
  unfold getitem.
  destruct (Z.ltb_spec i 0);
    match goal with
    | |- context [(0 <=? ?j) && (?j <? ?n)] =>
        destruct (Z.leb_spec 0 j); destruct (Z.ltb_spec j n); simpl
    end;
    try (split; [reflexivity || (intros; lia) | reflexivity || (intros; lia)]);
    match goal with
    | |- context [l !! ?k] =>
        destruct (l !! k) eqn:E;
        [split; [discriminate | lia]
        | apply lookup_ge_None in E; lia]
    end.
Qed.

Lemma getitem_Ok_or_IndexError l i :
  (exists x, getitem l i = Ok x) \/ getitem l i = Raise IndexError.
Proof.
  unfold getitem.
  destruct ((0 <=? _) && (_ <? _)); [|now right].
  destruct (l !! _) as [x|]; [left; now exists x | now right].
Qed.

Lemma slice_bound_in_range (n i : Z) : 0 <= i <= n -> slice_bound n i = i.
Proof.
  intros H. unfold slice_bound.
  destruct (Z.ltb_spec i 0); [lia|].
  destruct (Z.ltb_spec i 0); [lia|].
  destruct (Z.ltb_spec n i); lia.
Qed.

Lemma slice_in_range l (a b : Z) :
  0 <= a <= Z.of_nat (length l) -> 0 <= b <= Z.of_nat (length l) ->
  slice l a b = take (Z.to_nat b - Z.to_nat a) (drop (Z.to_nat a) l).
Proof.
  intros Ha Hb. unfold slice.
  rewrite !slice_bound_in_range by assumption.
  f_equal. lia.
Qed.

Lemma take_drop_seq (d : A) l (a k : nat) :
  (a + k <= length l)%nat ->
  take k (drop a l) = map (fun j => nth j l d) (seq a k).
Proof.
  revert a k. induction l as [|x l IH]; intros a k H; simpl in H.
  - assert (k = O) as -> by lia. now rewrite take_0.
  - destruct a as [|a].
    + destruct k as [|k]; [reflexivity|].
      simpl. f_equal. rewrite <- seq_shift, map_map.
      rewrite <- (IH O k) by lia. reflexivity.
    + rewrite <- seq_shift, map_map. simpl. apply IH. lia.
Qed.

End ListFacts.

(** ** The context builder *)

Section KagFacts.
Implicit Types (self : KagWorkflow) (all_lines : list str) (line_num : Z).

Lemma getitem_Ok_range {A} (l : list A) (i : Z) (x : A) :
  getitem l i = Ok x -> - Z.of_nat (length l) <= i < Z.of_nat (length l).
Proof.
  intros H.
  destruct (Z.ltb_spec i (- Z.of_nat (length l))) as [Hlo|Hlo];
    [|destruct (Z.ltb_spec i (Z.of_nat (length l))) as [Hhi|Hhi]; [lia|]].
  - assert (getitem l i = Raise IndexError) as E
        by (apply getitem_raises_iff; lia).
    congruence.
  - assert (getitem l i = Raise IndexError) as E
        by (apply getitem_raises_iff; lia).
    congruence.
Qed.

Lemma prev_line_of_total all_lines line_num (line : str) :
  getitem all_lines line_num = Ok line ->
  exists prev, prev_line_of all_lines line_num = Ok prev.
Proof.
  intros H. apply getitem_Ok_range in H. unfold prev_line_of.
  destruct (Z.gtb_spec line_num 0); [|now exists []].
  destruct (getitem_in_range all_lines (line_num - 1)) as [x [_ ->]]; [lia|].
  now exists (strip x).
Qed.

Lemma text_around_truthy self all_lines line_num :
  truthy (_build_context_text_around self all_lines line_num) = true.
Proof. reflexivity. Qed.

(** Whenever the two subscripts succeed, the context has all its sections. *)
Lemma build_context_sections self all_lines line_num (line prev : str) :
  getitem all_lines line_num = Ok line ->
  prev_line_of all_lines line_num = Ok prev ->
  build_context self all_lines line_num =
    Ok (NL ++ _build_context_text_around self all_lines line_num
           ++ _build_context_names_dict self line
           ++ SPEAKER_LABEL ++ _build_context_kag_description self prev ++ NL).
Proof.
  intros Hl Hp. unfold build_context. rewrite Hl. cbn [result_bind].
  rewrite Hp. cbn [result_bind]. now rewrite text_around_truthy.
Qed.

Lemma build_context_raises self all_lines line_num :
  getitem all_lines line_num = Raise IndexError ->
  build_context self all_lines line_num = Raise IndexError.
Proof. intros H. unfold build_context. now rewrite H. Qed.

(** [build_context] raises exactly where [all_lines[line_num]] does. *)
Lemma build_context_raises_iff self all_lines line_num :
  build_context self all_lines line_num = Raise IndexError <->
  line_num < - Z.of_nat (length all_lines)
  \/ Z.of_nat (length all_lines) <= line_num.
Proof.
  rewrite <- getitem_raises_iff. split; [|apply build_context_raises].
  intros H. destruct (getitem_Ok_or_IndexError all_lines line_num)
    as [[line Hl]|Hr]; [|exact Hr].
  destruct (prev_line_of_total _ _ _ Hl) as [prev Hp].
  rewrite (build_context_sections self _ _ _ _ Hl Hp) in H. discriminate.
Qed.

Lemma build_context_in_range self all_lines line_num :
  0 <= line_num < Z.of_nat (length all_lines) ->
  exists line prev,
    all_lines !! Z.to_nat line_num = Some line /\
    prev_line_of all_lines line_num = Ok prev /\
    build_context self all_lines line_num =
      Ok (NL ++ _build_context_text_around self all_lines line_num
             ++ _build_context_names_dict self line
             ++ SPEAKER_LABEL ++ _build_context_kag_description self prev
             ++ NL).
Proof.
  intros H. destruct (getitem_in_range all_lines line_num H) as [line [Hn Hl]].
  destruct (prev_line_of_total _ _ _ Hl) as [prev Hp].
  exists line, prev. repeat split; try assumption.
  now apply build_context_sections.
Qed.

(** *** The names sub-dictionary *)

Lemma dict_set_fresh (d : list (str * str)) (k v : str) :
  ~ In k (map fst d) -> dict_set d k v = d ++ [(k, v)].
Proof.
  induction d as [|[k' v'] d IH]; simpl; [reflexivity|].
  intros H. destruct (decide (k' = k)) as [->|_]; [tauto|].
  rewrite IH; [reflexivity | tauto].
Qed.

Lemma relevant_names_filter_from (target : str) (items acc : list (str * str)) :
  NoDup (map fst (acc ++ items)) ->
  fold_left
    (fun acc item =>
       if contains target (fst item)
       then dict_set acc (fst item) (snd item) else acc)
    items acc
  = acc ++ List.filter (fun item => contains target (fst item)) items.
Proof.
  revert acc. induction items as [|[k v] items IH]; intros acc H; simpl.
  - now rewrite app_nil_r.
  - assert (NoDup (map fst ((acc ++ [(k, v)]) ++ items))) as H1
        by now rewrite <- app_assoc.
    assert (~ In k (map fst acc)) as Hk.
    { rewrite map_app in H. simpl in H.
      apply NoDup_ListNoDup, List.NoDup_remove_2 in H.
      intros Hin. apply H, in_or_app. now left. }
    destruct (contains target k).
    + rewrite dict_set_fresh by exact Hk.
      rewrite IH by exact H1. now rewrite <- app_assoc.
    + apply IH. rewrite map_app in H |- *. simpl in H.
      apply NoDup_ListNoDup. apply NoDup_ListNoDup in H.
      eapply List.NoDup_remove_1. exact H.
Qed.

Lemma relevant_names_filter self (target : str) :
  NoDup (map fst (names_map self)) ->
  relevant_names self target
  = List.filter (fun item => contains target (fst item)) (names_map self).
Proof.
  intros H. unfold relevant_names.
  now rewrite relevant_names_filter_from.
Qed.

End KagFacts.

(** ** Properties of the context builder *)

Section KagClaims.
Implicit Types (self : KagWorkflow) (all_lines : list str) (line_num : Z).

(** C4. For a valid target index and a half-window [w >= 0], the scene
    excerpt is the scene-context label followed by the lines with indices
    in [[max(0, idx-w), min(len, idx+w+1))], verbatim and in order; with
    [w = 4] and a script of ten lines, the excerpt at index 2 is lines 0
    to 6. *)
Theorem text_around_is_window :
  (forall self all_lines line_num,
      0 <= line_num < Z.of_nat (length all_lines) ->
      0 <= window_size self ->
      let lo := Z.to_nat (Z.max 0 (line_num - window_size self)) in
      let hi := Z.to_nat (Z.min (Z.of_nat (length all_lines))
                                (line_num + window_size self + 1)) in
      (lo <= Z.to_nat line_num < hi)%nat /\
      _build_context_text_around self all_lines line_num
      = SCENE_HEADER
          ++ concat (map (fun j => nth j all_lines []) (seq lo (hi - lo))))
  /\
  (forall self (l0 l1 l2 l3 l4 l5 l6 l7 l8 l9 : str),
      window_size self = 4 ->
      _build_context_text_around self [l0; l1; l2; l3; l4; l5; l6; l7; l8; l9] 2
      = SCENE_HEADER ++ l0 ++ l1 ++ l2 ++ l3 ++ l4 ++ l5 ++ l6).
Proof.
  split.
  - intros self all_lines line_num Hi Hw lo hi.
    split; [subst lo hi; lia|].
    unfold _build_context_text_around.
    rewrite slice_in_range by lia.
    rewrite join_empty_sep. fold lo hi.
    rewrite (take_drop_seq []) by (subst lo hi; lia).
    reflexivity.
  - intros self l0 l1 l2 l3 l4 l5 l6 l7 l8 l9 Hw.
    unfold _build_context_text_around. rewrite Hw, join_empty_sep.
    change (slice [l0; l1; l2; l3; l4; l5; l6; l7; l8; l9] _ _)
      with [l0; l1; l2; l3; l4; l5; l6].
    cbn [concat]. now rewrite app_nil_r.
Qed.

Lemma text_around_is_window_witness :
  _build_context_text_around Sample.kag4 Sample.script 1
  = SCENE_HEADER
      ++ concat (map (fun j => nth j Sample.script []) (seq 0 (4 - 0))).
Proof.
  refine (proj2 (proj1 text_around_is_window Sample.kag4 Sample.script 1 _ _)).
  - vm_compute. split; [discriminate | reflexivity].
  - vm_compute. discriminate.
Defined.

(** C5. The names section lists exactly the entries of the Name Dictionary
    whose key is a literal substring of the target line, as [key = value]
    lines under the names header, in dictionary order; when no key is a
    substring of the target line the section is empty, header included, and
    the context goes from the scene excerpt straight to the speaker
    section. *)
Theorem names_section_lists_substring_keys self (target : str) :
  NoDup (map fst (names_map self)) ->
  let entries :=
    List.filter (fun item => contains target (fst item)) (names_map self) in
  (forall k v,
      In (k, v) entries <-> In (k, v) (names_map self) /\ Substring k target)
  /\
  _build_context_names_dict self target
  = match entries with
    | [] => []
    | _ :: _ =>
        NAMES_HEADER
          ++ join NL (map (fun item => fst item ++ lit " = " ++ snd item)
                          entries)
          ++ NL
    end
  /\
  ((forall k v, In (k, v) (names_map self) -> ~ Substring k target) ->
   _build_context_names_dict self target = []
   /\ forall all_lines line_num prev,
       getitem all_lines line_num = Ok target ->
       prev_line_of all_lines line_num = Ok prev ->
       build_context self all_lines line_num
       = Ok (NL ++ _build_context_text_around self all_lines line_num
                ++ SPEAKER_LABEL
                ++ _build_context_kag_description self prev ++ NL)).
Proof.
  intros Hnd entries.
  assert (forall k v,
             In (k, v) entries <->
             In (k, v) (names_map self) /\ Substring k target) as Hin.
  { intros k v. subst entries. rewrite filter_In. simpl.
    now rewrite contains_spec. }
  assert (_build_context_names_dict self target
          = match entries with
            | [] => []
            | _ :: _ =>
                NAMES_HEADER
                  ++ join NL (map (fun item => fst item ++ lit " = " ++ snd item)
                                  entries)
                  ++ NL
            end) as Hsec.
  { unfold _build_context_names_dict.
    rewrite (relevant_names_filter self target Hnd). fold entries.
    destruct entries; [reflexivity|]. now rewrite <- app_assoc. }
  split; [exact Hin|]. split; [exact Hsec|].
  intros Hnone.
  assert (entries = []) as He.
  { destruct entries as [|[k v] rest] eqn:E; [reflexivity|].
    exfalso. apply (Hnone k v); apply (Hin k v); now left. }
  assert (_build_context_names_dict self target = []) as Hempty
      by now rewrite Hsec, He.
  split; [exact Hempty|].
  intros all_lines line_num prev Hl Hp.
  rewrite (build_context_sections self _ _ _ _ Hl Hp), Hempty. reflexivity.
Qed.

Lemma names_section_lists_substring_keys_witness :
  _build_context_names_dict Sample.kag4 (lit "「ユキ、ここですか。」" ++ NL)
  = NAMES_HEADER ++ lit "ユキ = Юки" ++ NL.
Proof.
  assert (NoDup (map fst (names_map Sample.kag4))) as Hnd.
  { apply NoDup_ListNoDup.
    repeat (constructor; [vm_compute; intuition discriminate|]).
    constructor. }
  exact (proj1 (proj2 (names_section_lists_substring_keys
                         Sample.kag4 (lit "「ユキ、ここですか。」" ++ NL) Hnd))).
Defined.



Example build_context_negative_index :
  exists s, build_context Sample.kag4 Sample.script (-1) = Ok s.
Proof. eexists. vm_compute. reflexivity. Qed.

(** With a negative window the stop of the slice can be negative, and is
    then counted from the end of the list. *)
Example text_around_negative_window :
  _build_context_text_around
    {| window_size := -5; names_map := []; kag_db := ∅ |}
    (map (fun c => [c]) [48; 49; 50; 51; 52; 53; 54; 55; 56; 57]%N) 2
  = SCENE_HEADER ++ [55%N].
Proof. vm_compute. reflexivity. Qed.


Example first_line_speaker_with_empty_key :
  prev_line_of Sample.script 0 = Ok []
  /\ _build_context_kag_description Sample.kag_empty_key []
     = lit "прямая речь, Анна, студентка, пол: женский".
Proof. split; vm_compute; reflexivity. Qed.

(** C3 fails on the code. On an empty script [build_context] raises
    [IndexError] at its first subscript; and where the excerpt is empty on
    a script that is not (a negative window), the label keeps the
    scene text non-empty, so the speaker section is appended. No input makes
    it return the empty string. *)
Theorem build_context_empty_excerpt :
  build_context Sample.kag4 [] 0 = Raise IndexError
  /\ slice [lit "a" ++ NL] (Z.max 0 (0 - -1)) (Z.min 1 (0 + -1 + 1)) = []
  /\ build_context Sample.kag_negative_window [lit "a" ++ NL] 0
     = Ok (NL ++ SCENE_HEADER ++ SPEAKER_LABEL ++ NARRATION ++ NL)
  /\ (forall self all_lines line_num,
         build_context self all_lines line_num <> Ok []).
Proof.
  split; [reflexivity|]. split; [reflexivity|].
  split; [vm_compute; reflexivity|].
  intros self all_lines line_num H.
  destruct (getitem_Ok_or_IndexError all_lines line_num) as [[line Hl]|Hr].
  - destruct (prev_line_of_total _ _ _ Hl) as [prev Hp].
    rewrite (build_context_sections self _ _ _ _ Hl Hp) in H. discriminate.
  - rewrite (build_context_raises self _ _ Hr) in H. discriminate.
Qed.

(** C9, as the code has it. [build_context] subscripts the line list
    without a guard, and a negative index counts from the end of the list:
    it raises [IndexError] exactly when [line_num < -len(all_lines)] or
    [line_num >= len(all_lines)], so always on an empty script, and it
    returns for every other index, in particular for
    [0 <= line_num < len(all_lines)]. What it returns is never the empty
    string: the label is put in front of the excerpt unconditionally, and
    no input takes the branch that returns the empty string. *)
Theorem build_context_domain self all_lines line_num :
  (build_context self all_lines line_num = Raise IndexError <->
   line_num < - Z.of_nat (length all_lines)
   \/ Z.of_nat (length all_lines) <= line_num)
  /\ (- Z.of_nat (length all_lines) <= line_num < Z.of_nat (length all_lines) ->
      exists s, build_context self all_lines line_num = Ok s /\ s <> [])
  /\ (0 <= line_num < Z.of_nat (length all_lines) ->
      exists s, build_context self all_lines line_num = Ok s /\ s <> [])
  /\ (all_lines = [] ->
      build_context self all_lines line_num = Raise IndexError)
  /\ (forall s, build_context self all_lines line_num = Ok s -> s <> []).
Proof.
  assert (- Z.of_nat (length all_lines) <= line_num
          < Z.of_nat (length all_lines) ->
          exists s, build_context self all_lines line_num = Ok s /\ s <> [])
    as Hret.
  { intros H.
    destruct (getitem_Ok_or_IndexError all_lines line_num) as [[line Hl]|Hr].
    - destruct (prev_line_of_total _ _ _ Hl) as [prev Hp].
      rewrite (build_context_sections self _ _ _ _ Hl Hp).
      eexists. split; [reflexivity | discriminate].
    - apply getitem_raises_iff in Hr. lia. }
  split; [apply build_context_raises_iff|].
  split; [exact Hret|].
  split; [intros H; apply Hret; lia|].
  split.
  - intros ->. apply build_context_raises_iff. simpl. lia.
  - intros s H ->.
    destruct (getitem_Ok_or_IndexError all_lines line_num) as [[line Hl]|Hr].
    + destruct (prev_line_of_total _ _ _ Hl) as [prev Hp].
      rewrite (build_context_sections self _ _ _ _ Hl Hp) in H. discriminate.
    + rewrite (build_context_raises self _ _ Hr) in H. discriminate.
Qed.

Lemma build_context_domain_witness :
  (exists s, build_context Sample.kag4 Sample.script (-4) = Ok s /\ s <> [])
  /\ (exists s, build_context Sample.kag4 Sample.script 1 = Ok s /\ s <> [])
  /\ build_context Sample.kag4 [] 0 = Raise IndexError
  /\ build_context Sample.kag4 Sample.script 4 = Raise IndexError
  /\ build_context Sample.kag4 Sample.script (-5) = Raise IndexError.
Proof.
  split; [|split; [|split; [|split]]].
  - apply (proj1 (proj2 (build_context_domain Sample.kag4 Sample.script (-4)))).
    vm_compute. split; [discriminate | reflexivity].
  - apply (proj1 (proj2 (proj2
             (build_context_domain Sample.kag4 Sample.script 1)))).
    vm_compute. split; [discriminate | reflexivity].
  - apply (proj1 (proj2 (proj2 (proj2
             (build_context_domain Sample.kag4 [] 0))))).
    reflexivity.
  - apply (proj1 (build_context_domain Sample.kag4 Sample.script 4)).
    right. vm_compute. discriminate.
  - apply (proj1 (build_context_domain Sample.kag4 Sample.script (-5))).
    left. reflexivity.
Defined.

(** C9, as stated, fails: [0 <= line_num < len(all_lines)] is not required.
    An index from [-len(all_lines)] to [-1] is outside that range and is
    served from the end of the list, without [IndexError]. *)
Lemma build_context_serves_negative_index :
  ~ (forall self all_lines line_num,
        ~ (0 <= line_num < Z.of_nat (length all_lines)) ->
        build_context self all_lines line_num = Raise IndexError).
Proof.
  intros H.
  specialize (H Sample.kag4 Sample.script (-1)).
  assert (~ (0 <= -1 < Z.of_nat (length Sample.script))) as Hout by lia.
  specialize (H Hout). vm_compute in H. discriminate H.
Qed.

End KagClaims.

(** ** The monad and the trace *)

Section EffFacts.
Context {B : Backend}.

Lemma returns_ret {A} (a : A) (w : World) : returns (ret a) w a [] w.
Proof. unfold returns, ret. now rewrite app_nil_r. Qed.

Lemma returns_bind {A C} (m : M A) (k : A -> M C) w a ev1 w1 c ev2 w2 :
  returns m w a ev1 w1 -> returns (k a) w1 c ev2 w2 ->
  returns (bind m k) w c (ev1 ++ ev2) w2.
Proof.
  intros (Hm & Ht1 & Hc1 & Hk1) (Hk & Ht2 & Hc2 & Hk2).
  unfold returns, bind. rewrite Hm, Hk, Ht2, Ht1, Hc2, Hc1, app_assoc.
  repeat split. lia.
Qed.

Lemma returns_print (line : list piece) (w : World) :
  exists w', returns (print line) w tt [Print line] w' /\ ticks w' = ticks w.
Proof.
  exists {| model := model w; clock := clock w; ticks := ticks w;
            trace := trace w ++ [Print line] |}.
  unfold returns, print. simpl. repeat split. lia.
Qed.

Lemma returns_time (w : World) :
  exists w',
    returns time_time w (clock w (ticks w)) [] w' /\ ticks w' = S (ticks w).
Proof.
  exists {| model := model w; clock := clock w; ticks := S (ticks w);
            trace := trace w |}.
  unfold returns, time_time. simpl. rewrite app_nil_r. repeat split. lia.
Qed.

Lemma returns_generate (prompt : str) (mt : Z) (t : float) (w : World) :
  exists a w',
    returns (generate_response prompt mt t) w a [Generate prompt mt t a] w'.
Proof.
  unfold returns, generate_response.
  destruct (model_generate prompt mt t (model w)) as [raw m'] eqn:E.
  exists (strip raw).
  exists {| model := m'; clock := clock w; ticks := ticks w;
            trace := trace w ++ [Generate prompt mt t (strip raw)] |}.
  simpl. repeat split. lia.
Qed.

Lemma generations_app (tr1 tr2 : list event) :
  generations (tr1 ++ tr2) = generations tr1 ++ generations tr2.
Proof. apply List.filter_app. Qed.

Lemma progress_reports_app (tr1 tr2 : list event) :
  progress_reports (tr1 ++ tr2) = progress_reports tr1 ++ progress_reports tr2.
Proof. apply List.filter_app. Qed.

Lemma generations_attempt_trace i prompt mt t name answers :
  generations (attempt_trace i prompt mt t name answers)
  = attempts i prompt mt t answers.
Proof.
  revert i prompt. induction answers as [|a rest IH]; intros i prompt;
    [reflexivity|].
  simpl. f_equal. apply IH.
Qed.

End EffFacts.

(** ** The retry wrapper *)

Section LlmFacts.
Context {B : Backend}.

Lemma truthy_false (s : str) : truthy s = false <-> s = [].
Proof. destruct s; simpl; split; congruence. Qed.

Lemma truthy_true (s : str) : truthy s = true <-> s <> [].
Proof. destruct s; simpl; split; congruence. Qed.

Lemma clean_no_LF (a : str) : ~ In LF (clean a).
Proof. intros H. apply strip_In in H. exact (first_line_no_LF _ H). Qed.

Lemma retry_result_no_LF (answers : list str) : ~ In LF (retry_result answers).
Proof.
  induction answers as [|a rest IH]; simpl.
  - vm_compute. intuition discriminate.
  - destruct (truthy (clean a)); [apply clean_no_LF | exact IH].
Qed.



(** The loop always returns: what it did is a run of attempts, and what it
    returns is the result of that run. *)
Lemma retry_loop_returns n i prompt mt t name w :
  exists answers w',
    returns (retry_loop n i prompt mt t name) w
            (retry_result answers)
            (attempt_trace i prompt mt t name answers) w'
    /\ retry_shape n answers.
Proof.
  revert i prompt w. induction n as [|n IH]; intros i prompt w.
  - exists [], w. split; [apply returns_ret|].
    split; [simpl; lia|]. right. now split.
  - destruct (returns_generate prompt mt t w) as (a & w1 & Hg).
    destruct (returns_print [Txt (name ++ lit ": " ++ clean a)] w1)
      as (w2 & Hp & _).
    destruct (truthy (clean a)) eqn:Ha.
    + exists [a], w2. split.
      * simpl retry_loop. simpl retry_result. rewrite Ha.
        change (attempt_trace i prompt mt t name [a])
          with ([Generate prompt mt t a]
                  ++ ([Print [Txt (name ++ lit ": " ++ clean a)]] ++ [])).
        eapply returns_bind; [exact Hg|]. fold (clean a).
        eapply returns_bind; [exact Hp|]. rewrite Ha. apply returns_ret.
      * split; [simpl; lia|]. left. exists [], a.
        repeat split; [constructor | now apply truthy_true].
    + destruct (IH (i + 1) (with_attempt_marker i prompt) w2)
        as (rest & w3 & Hr & Hlen & Hshape).
      exists (a :: rest), w3. split.
      * simpl retry_loop. simpl retry_result. rewrite Ha.
        change (attempt_trace i prompt mt t name (a :: rest))
          with ([Generate prompt mt t a]
                  ++ ([Print [Txt (name ++ lit ": " ++ clean a)]]
                        ++ attempt_trace (i + 1) (with_attempt_marker i prompt)
                             mt t name rest)).
        eapply returns_bind; [exact Hg|]. fold (clean a).
        eapply returns_bind; [exact Hp|]. rewrite Ha. exact Hr.
      * apply truthy_false in Ha. split; [simpl; lia|].
        destruct Hshape as [(failed & b & -> & Hf & Hb)|[Hn Hall]].
        -- left. exists (a :: failed), b. repeat split; auto.
        -- right. split; [simpl; lia | now constructor].
Qed.


End LlmFacts.

(** Third answer wins: two empty answers, then ["Привет"], three calls. *)
Example retry_third_answer :
  let run := generate_with_retry (lit "p") 256 DEFAULT_TEMPERATURE 10 (lit "x")
               (Stub.world [[]; []; lit "Привет"]) in
  fst run = Ok (lit "Привет") /\ length (generations (trace (snd run))) = 3%nat.
Proof. vm_compute. split; reflexivity. Qed.

(** Exhaustion: an always-empty model and [retry_count = 3] give the
    sentinel after three calls. *)
Example retry_exhaustion :
  let run := generate_with_retry (lit "p") 256 DEFAULT_TEMPERATURE 3 (lit "x")
               (Stub.world []) in
  fst run = Ok (lit "no response from llm")
  /\ generations (trace (snd run))
     = attempts 0 (lit "p") 256 DEFAULT_TEMPERATURE [[]; []; []].
Proof. vm_compute. split; reflexivity. Qed.

(** Of a response of several lines only the first is kept, and it is
    enough: no retry is made. *)
Example retry_blank_first_line :
  let run := generate_with_retry (lit "p") 256 DEFAULT_TEMPERATURE 2 (lit "x")
               (Stub.world [lit "x" ++ NL ++ lit "text"; lit " " ++ NL ++ lit "text"; lit "ok"]) in
  fst run = Ok (lit "x").
Proof. vm_compute. reflexivity. Qed.

(** ** The translate-and-edit pipeline *)

Section TranslateFacts.
Context {B : Backend}.
Implicit Types (self : TranslateWorkflow) (w : World).

Lemma retry_shape_not_nil (n : nat) (answers : list str) :
  (0 < n)%nat -> retry_shape n answers -> answers <> [].
Proof.
  intros Hn [_ [(failed & a & -> & _)|[Hlen _]]].
  - now destruct failed.
  - destruct answers; simpl in Hlen; [lia | discriminate].
Qed.

Lemma attempts_not_nil i prompt mt t (answers : list str) :
  answers <> [] -> attempts i prompt mt t answers <> [].
Proof. destruct answers; [congruence | discriminate]. Qed.

Lemma no_progress_attempt_trace i prompt mt t (name : str) answers :
  (forall x, startswith (name ++ x) PROGRESS_PREFIX = false) ->
  progress_reports (attempt_trace i prompt mt t name answers) = [].
Proof.
  intros Hname. revert i prompt.
  induction answers as [|a rest IH]; intros i prompt; [reflexivity|].
  cbn [attempt_trace progress_reports List.filter is_progress].
  rewrite Hname. apply IH.
Qed.

Lemma print_prompt_returns self (prompt label : str) w :
  startswith prompt PROGRESS_PREFIX = false ->
  exists ev w',
    returns (_print_prompt self prompt label) w tt ev w'
    /\ generations ev = [] /\ progress_reports ev = [].
Proof.
  intros Hp. unfold _print_prompt. destruct (show_prompt self).
  - destruct (returns_print
                [Txt (repeat 61%N 40 ++ label ++ repeat 61%N 40)] w)
      as (w1 & H1 & _).
    destruct (returns_print [Txt prompt] w1) as (w2 & H2 & _).
    destruct (returns_print
                [Txt (repeat 61%N 40 ++ label ++ lit " END" ++ repeat 61%N 40)]
                w2) as (w3 & H3 & _).
    eexists. exists w3. split.
    + eapply returns_bind; [exact H1|].
      eapply returns_bind; [exact H2 | exact H3].
    + split; [reflexivity|].
      cbn [app progress_reports List.filter is_progress].
      rewrite Hp. reflexivity.
  - exists [], w. split; [apply returns_ret | now split].
Qed.

Lemma edit_with_llm_returns self (line : str) w :
  exists answers ev w',
    returns (_edit_with_llm self line) w (retry_result answers) ev w'
    /\ generations ev
       = attempts 0 (edit_prompt line) (max_tokens self) (temperature self)
                  answers
    /\ progress_reports ev = []
    /\ retry_shape 10 answers.
Proof.
  unfold _edit_with_llm.
  destruct (print_prompt_returns self (edit_prompt line) (lit "EDIT PROMPT") w)
    as (ev1 & w1 & H1 & Hg1 & Hp1); [reflexivity|].
  destruct (retry_loop_returns 10 0 (edit_prompt line) (max_tokens self)
              (temperature self) (lit "edit") w1)
    as (answers & w2 & H2 & Hshape).
  exists answers. eexists. exists w2. split.
  - eapply returns_bind; [exact H1 | exact H2].
  - rewrite generations_app, progress_reports_app, Hg1, Hp1,
      generations_attempt_trace.
    rewrite no_progress_attempt_trace by (intros x; reflexivity).
    split; [reflexivity|]. split; [reflexivity | exact Hshape].
Qed.

Lemma translate_with_llm_returns self (line context : str) w :
  exists answers1 answers2 ev w',
    returns (_translate_with_llm self line context) w
            (retry_result answers2) ev w'
    /\ generations ev
       = attempts 0 (translate_prompt context line)
                  (max_tokens self) (temperature self) answers1
         ++ attempts 0 (edit_prompt (retry_result answers1))
                     (max_tokens self) (temperature self) answers2
    /\ progress_reports ev = []
    /\ retry_shape 10 answers1 /\ retry_shape 10 answers2.
Proof.
  unfold _translate_with_llm.
  destruct (returns_print [Txt (lit "original: " ++ line)] w)
    as (w1 & H1 & _).
  destruct (print_prompt_returns self (translate_prompt context line)
              (lit "TRANSLATE PROMPT") w1)
    as (ev2 & w2 & H2 & Hg2 & Hp2); [reflexivity|].
  destruct (retry_loop_returns 10 0 (translate_prompt context line)
              (max_tokens self) (temperature self) (lit "translation") w2)
    as (answers1 & w3 & H3 & Hs1).
  destruct (edit_with_llm_returns self (retry_result answers1) w3)
    as (answers2 & ev4 & w4 & H4 & Hg4 & Hp4 & Hs2).
  exists answers1, answers2. eexists. exists w4. split.
  - eapply returns_bind; [exact H1|].
    eapply returns_bind; [exact H2|].
    eapply returns_bind; [exact H3 | exact H4].
  - rewrite !generations_app, !progress_reports_app, Hg2, Hp2, Hg4, Hp4,
      generations_attempt_trace.
    rewrite no_progress_attempt_trace by (intros x; reflexivity).
    split; [reflexivity|]. split; [reflexivity|]. split; assumption.
Qed.

Lemma run_translate_returns self (line context : str) w :
  exists answers1 answers2 ev w',
    returns (run_translate self line context) w (retry_result answers2) ev w'
    /\ generations ev
       = attempts 0 (translate_prompt context (strip line))
                  (max_tokens self) (temperature self) answers1
         ++ attempts 0 (edit_prompt (retry_result answers1))
                     (max_tokens self) (temperature self) answers2
    /\ progress_reports ev = []
    /\ retry_shape 10 answers1 /\ retry_shape 10 answers2.
Proof.
  unfold run_translate.
  destruct (returns_time w) as (w1 & H1 & _).
  destruct (translate_with_llm_returns self (strip line) context w1)
    as (answers1 & answers2 & ev2 & w2 & H2 & Hg2 & Hp2 & Hs1 & Hs2).
  destruct (returns_time w2) as (w3 & H3 & _).
  destruct (returns_print
              [Txt (lit "done in ");
               Fix1 (clock w2 (ticks w2) - clock w (ticks w));
               Txt (lit "s" ++ NL)] w3) as (w4 & H4 & _).
  exists answers1, answers2. eexists. exists w4. split.
  - eapply returns_bind; [exact H1|].
    eapply returns_bind; [exact H2|].
    eapply returns_bind; [exact H3|].
    eapply returns_bind; [exact H4 | apply returns_ret].
  - rewrite !generations_app, !progress_reports_app, Hg2, Hp2.
    cbn [app generations List.filter is_generate].
    rewrite !app_nil_r.
    split; [reflexivity|]. split; [reflexivity|]. split; assumption.
Qed.


(** C10. [run_translate] strips the line before anything else sees it: in
    the same world, a line and its stripped form give the same result, the
    same trace and the same final state. *)
Theorem run_translate_strip_invariant self (line context : str) w :
  run_translate self line context w
  = run_translate self (strip line) context w.
Proof. unfold run_translate. now rewrite strip_idem. Qed.

End TranslateFacts.

(** A model that never answers: both stages are exhausted, the edit stage
    works on the sentinel and the pipeline returns the sentinel after twenty
    calls. *)
Example pipeline_sentinel_passes_through :
  let self := TranslateWorkflow_init false in
  let run := run_translate self (lit "ここですか。" ++ NL) [] (Stub.world []) in
  fst run = Ok (lit "no response from llm")
  /\ length (generations (trace (snd run))) = 20%nat
  /\ nth_error (generations (trace (snd run))) 10
     = Some (Generate (edit_prompt (lit "no response from llm"))
                      256 DEFAULT_TEMPERATURE []).
Proof. vm_compute. repeat split; reflexivity. Qed.

(** The single-line contract: of ["line one\nextra junk"] only ["line one"]
    is kept. *)
Example pipeline_keeps_first_line :
  let self := TranslateWorkflow_init false in
  let run := run_translate self (lit "x") []
               (Stub.world [lit "line one" ++ NL ++ lit "extra junk";
                            lit "line one" ++ NL ++ lit "extra junk"]) in
  fst run = Ok (lit "line one").
Proof. vm_compute. reflexivity. Qed.

Example run_translate_strip_example :
  fst (run_translate (TranslateWorkflow_init true)
         ([32; 12288]%N ++ lit "ここ" ++ NL) [] (Stub.world [lit "a"; lit "b"]))
  = Ok (lit "b").
Proof. vm_compute. reflexivity. Qed.

(** ** The file orchestrator *)

Section FileFacts.
Context {B : Backend}.
Implicit Types (self : FileWorkflow) (w : World) (lines : list str).

Lemma eta_matches (elapsed : float) (i total : Z) :
  0 <= i ->
  (if i >? 0
   then (elapsed / float_of_int i * float_of_int total - elapsed)%float
   else float_of_int 0)
  = progress_eta elapsed i total.
Proof.
  intros H. unfold progress_eta.
  destruct (Z.gtb_spec i 0); destruct (Z.eqb_spec i 0); try lia; reflexivity.
Qed.

Lemma print_progress_returns self (i : Z) w (start : float) (total : Z) :
  start_file_translation (file_data self) = Some start ->
  all_lines_len (file_data self) = Some total ->
  total <> 0 -> 0 <= i ->
  exists w',
    returns (_print_progress self i) w tt
            [Print (progress_line total i (clock w (ticks w) - start))] w'.
Proof.
  intros Hs Ht Hz Hi.
  exists {| model := model w; clock := clock w; ticks := S (ticks w);
            trace := trace w
                       ++ [Print (progress_line total i
                                    (clock w (ticks w) - start))] |}.
  unfold returns, _print_progress, bind, time_time, file_data_get.
  rewrite Hs, Ht. unfold ret, lift, floordiv.
  destruct (Z.eqb_spec total 0) as [|_]; [contradiction|].
  unfold print. cbn [model clock ticks trace].
  rewrite (eta_matches _ _ _ Hi).
  repeat split. lia.
Qed.

Lemma context_for_in_range self lines (i : Z) :
  0 <= i < Z.of_nat (length lines) ->
  exists ctx, context_for self lines i = Ok ctx.
Proof.
  intros Hi. unfold context_for. destruct (kag_enabled self); [|now exists []].
  destruct (build_context_in_range (kag self) lines i Hi)
    as (line & prev & _ & _ & ->).
  eexists. reflexivity.
Qed.

Lemma translate_line_returns self lines (i : Z) (line : str) w (start : float) :
  start_file_translation (file_data self) = Some start ->
  all_lines (file_data self) = Some lines ->
  all_lines_len (file_data self) = Some (Z.of_nat (length lines)) ->
  0 <= i < Z.of_nat (length lines) ->
  exists (ctx r : str) (w1 w2 : World) (ev : list event) (w' : World),
    context_for self lines i = Ok ctx
    /\ run_translate (translate self) line ctx w1 = (Ok r, w2)
    /\ ~ In LF r
    /\ returns (_translate_line self i line) w r
         (Print (progress_line (Z.of_nat (length lines)) i
                   (clock w (ticks w) - start)) :: ev) w'
    /\ progress_reports ev = [] /\ generations ev <> [].
Proof.
  intros Hs Hl Ht Hi.
  destruct (print_progress_returns self i w start _ Hs Ht) as (w1 & H1);
    [lia | lia |].
  destruct (context_for_in_range self lines i Hi) as (ctx & Hctx).
  destruct (run_translate_returns (translate self) line ctx w1)
    as (answers1 & answers2 & ev & w2 & H2 & Hg & Hp & Hs1 & Hs2).
  exists ctx, (retry_result answers2), w1, w2, ev, w2.
  split; [exact Hctx|]. split; [exact (proj1 H2)|].
  split; [apply retry_result_no_LF|]. split; [|split; [exact Hp|]].
  - unfold _translate_line.
    change (Print ?p :: ev) with ([Print p] ++ ([] ++ ev)).
    eapply returns_bind; [exact H1|].
    eapply returns_bind; [|exact H2].
    unfold context_for in Hctx. destruct (kag_enabled self).
    + unfold file_data_get. rewrite Hl. unfold bind, ret, lift, returns.
      rewrite Hctx, app_nil_r. repeat split. lia.
    + injection Hctx as <-. apply returns_ret.
  - rewrite Hg. intros E. apply app_eq_nil in E as [E _].
    revert E. apply attempts_not_nil.
    eapply retry_shape_not_nil; [|exact Hs1]. lia.
Qed.

Lemma translate_lines_from_returns self lines (w0 : World) :
  start_file_translation (file_data self) = Some (clock w0 (ticks w0)) ->
  all_lines (file_data self) = Some lines ->
  all_lines_len (file_data self) = Some (Z.of_nat (length lines)) ->
  forall (rest pre acc : list str) w,
    lines = pre ++ rest -> clock w = clock w0 -> (ticks w0 < ticks w)%nat ->
    exists (outs : list str) (segs : list (list event)) (w' : World),
      returns (translate_lines_from self (Z.of_nat (length pre)) rest acc) w
              (acc ++ outs) (concat segs) w'
      /\ lines_processed self lines w0 (Z.of_nat (length pre)) rest outs segs.
Proof.
  intros Hs Hl Ht. induction rest as [|line rest IH]; intros pre acc w E Hc Hk.
  - exists [], [], w. rewrite app_nil_r. split; [apply returns_ret|constructor].
  - assert (lines = (pre ++ [line]) ++ rest) as E'
        by now rewrite <- app_assoc.
    assert (Z.of_nat (length pre) + 1 = Z.of_nat (length (pre ++ [line]))) as Hi
        by (rewrite length_app; simpl; lia).
    cbn [translate_lines_from]. destruct (truthy (strip line)) eqn:Hb.
    + destruct (translate_line_returns self lines (Z.of_nat (length pre))
                  line w _ Hs Hl Ht)
        as (ctx & r & w1 & w2 & ev & w' & Hctx & Hrun & HLF & Hret & Hp & Hg).
      { rewrite E, length_app. simpl. lia. }
      destruct (IH (pre ++ [line]) (acc ++ [r ++ NL]) w' E')
        as (outs & segs & w'' & Hrest & Hproc).
      { destruct Hret as (_ & _ & -> & _). exact Hc. }
      { destruct Hret as (_ & _ & _ & ?). lia. }
      exists ((r ++ NL) :: outs),
             ((Print (progress_line (Z.of_nat (length lines))
                        (Z.of_nat (length pre))
                        (clock w (ticks w) - clock w0 (ticks w0))) :: ev)
                :: segs), w''.
      split.
      * cbn [concat].
        replace (acc ++ (r ++ NL) :: outs) with ((acc ++ [r ++ NL]) ++ outs)
          by now rewrite <- app_assoc.
        eapply returns_bind; [exact Hret|]. rewrite Hi. exact Hrest.
      * constructor; [|rewrite Hi; exact Hproc].
        unfold line_step. rewrite Hb.
        exists ctx, r, w1, w2, (ticks w), ev. rewrite <- Hc.
        repeat split; auto.
    + destruct (IH (pre ++ [line]) (acc ++ [line]) w E' Hc Hk)
        as (outs & segs & w'' & Hrest & Hproc).
      exists (line :: outs), ([] :: segs), w''. split.
      * cbn [concat app].
        replace (acc ++ line :: outs) with ((acc ++ [line]) ++ outs)
          by now rewrite <- app_assoc.
        rewrite Hi. exact Hrest.
      * constructor; [|rewrite Hi; exact Hproc].
        unfold line_step. rewrite Hb. now split.
Qed.

Lemma lines_processed_file_data self (d : FileData) lines (w0 : World)
    (i : Z) (rest outs : list str) (segs : list (list event)) :
  lines_processed (with_file_data self d) lines w0 i rest outs segs ->
  lines_processed self lines w0 i rest outs segs.
Proof.
  induction 1 as [i|i line rest out outs seg segs Hstep _ IH];
    constructor; [exact Hstep | exact IH].
Qed.

(** The orchestrator always returns, and everything it does is the
    processing of its lines, one after the other, followed by two closing
    lines of output. *)
Lemma translate_one_file_returns self lines w :
  exists (outs : list str) (segs : list (list event)) (closing : list event)
         (w' : World),
    returns (translate_one_file self lines) w outs (concat segs ++ closing) w'
    /\ progress_reports closing = []
    /\ generations closing = []
    /\ lines_processed self lines w 0 lines outs segs.
Proof.
  destruct (returns_time w) as (w1 & H1 & Hk1).
  pose (self' := with_file_data self
                   {| start_file_translation := Some (clock w (ticks w));
                      all_lines := Some lines;
                      all_lines_len := Some (Z.of_nat (length lines)) |}).
  destruct (translate_lines_from_returns self' lines w
              eq_refl eq_refl eq_refl lines [] [] w1 eq_refl)
    as (outs & segs & w2 & H2 & Hproc).
  { now destruct H1 as (_ & _ & -> & _). }
  { lia. }
  destruct (returns_print [Txt (lit "Translation done successfully! (100%)")] w2)
    as (w3 & H3 & _).
  destruct (returns_time w3) as (w4 & H4 & _).
  destruct (returns_print
              [Txt (lit "done in ");
               Fix1 ((clock w3 (ticks w3) - clock w (ticks w))
                     / float_of_int 60);
               Txt (lit " min")] w4) as (w5 & H5 & _).
  exists outs, segs. eexists. exists w5. split; [|split; [|split]].
  - unfold translate_one_file.
    change (concat segs ++ ?c) with ([] ++ (concat segs ++ c)).
    eapply returns_bind; [exact H1|]. fold self'.
    eapply returns_bind; [exact H2|].
    eapply returns_bind; [exact H3|].
    eapply returns_bind; [exact H4|]. cbn [file_data_get].
    unfold file_data_get. cbn.
    eapply (returns_bind (ret _)); [apply returns_ret|].
    eapply returns_bind; [exact H5 | apply returns_ret].
  - reflexivity.
  - reflexivity.
  - exact (lines_processed_file_data _ _ _ _ _ _ _ _ Hproc).
Qed.

Lemma lines_processed_lookup self lines (w0 : World) (i0 : Z)
    (rest outs : list str) (segs : list (list event)) :
  lines_processed self lines w0 i0 rest outs segs ->
  length outs = length rest /\ length segs = length rest
  /\ forall (j : nat) (line : str),
      rest !! j = Some line ->
      exists out seg,
        outs !! j = Some out /\ segs !! j = Some seg
        /\ line_step self lines w0 (i0 + Z.of_nat j) line out seg.
Proof.
  induction 1 as [i|i line rest out outs seg segs Hstep _ (Hlo & Hls & IH)].
  - repeat split; intros j line Hj; discriminate.
  - split; [simpl; lia|]. split; [simpl; lia|].
    intros [|j] l Hj; simpl in Hj.
    + injection Hj as <-. exists out, seg. rewrite Z.add_0_r. now repeat split.
    + destruct (IH j l Hj) as (o & sg & Ho & Hsg & Hst).
      exists o, sg. repeat split; auto.
      replace (i + Z.of_nat (S j)) with (i + 1 + Z.of_nat j) by lia.
      exact Hst.
Qed.

End FileFacts.

(** ** Properties of the orchestrator *)

Section FileClaims.
Context {B : Backend}.
Implicit Types (self : FileWorkflow) (w : World) (lines : list str).

(** C1. For every list of input lines the orchestrator returns a list of
    the same length, line for line in the order of the input: a line that
    is only white space is copied unchanged, and any other line is replaced
    by the result of the pipeline on it, which has no line break, followed
    by the line terminator. *)
Theorem output_lines_match_input self lines w :
  exists (outs : list str) (w' : World),
    translate_one_file self lines w = (Ok outs, w')
    /\ length outs = length lines
    /\ forall (i : nat) (line : str),
        lines !! i = Some line ->
        (strip line = [] -> outs !! i = Some line)
        /\ (strip line <> [] ->
            exists (ctx r : str) (w1 w2 : World),
              context_for self lines (Z.of_nat i) = Ok ctx
              /\ run_translate (translate self) line ctx w1 = (Ok r, w2)
              /\ ~ In LF r
              /\ outs !! i = Some (r ++ NL)).
Proof.
  destruct (translate_one_file_returns self lines w)
    as (outs & segs & closing & w' & (Hrun & _) & _ & _ & Hproc).
  destruct (lines_processed_lookup _ _ _ _ _ _ _ Hproc) as (Hlen & _ & Hat).
  exists outs, w'. split; [exact Hrun|]. split; [exact Hlen|].
  intros i line Hi.
  destruct (Hat i line Hi) as (out & seg & Ho & _ & Hstep).
  unfold line_step in Hstep. split.
  - intros Hb. apply truthy_false in Hb. rewrite Hb in Hstep.
    destruct Hstep as [-> _]. exact Ho.
  - intros Hb. apply truthy_true in Hb. rewrite Hb in Hstep.
    destruct Hstep as (ctx & r & w1 & w2 & k & ev & Hc & Hr & HLF & -> & _).
    exists ctx, r, w1, w2. now repeat split.
Qed.

(** C8, as the code has it. A progress report is printed for each line that
    is not blank, and for no other, as the first thing done for that line:
    the calls of the model for the line come after it. The report gives the
    index of the line as the number of lines processed, the percentage
    [index * 100 // total], the time elapsed since the start and the
    estimate [elapsed / index * total - elapsed], which is zero at index
    0. *)
Theorem progress_report_before_each_translated_line self lines w :
  exists (outs : list str) (segs : list (list event)) (closing : list event)
         (w' : World),
    translate_one_file self lines w = (Ok outs, w')
    /\ trace w' = trace w ++ concat segs ++ closing
    /\ progress_reports closing = []
    /\ length segs = length lines
    /\ forall (i : nat) (line : str),
        lines !! i = Some line ->
        exists seg,
          segs !! i = Some seg
          /\ (strip line = [] -> seg = [])
          /\ (strip line <> [] ->
              exists (k : nat) (ev : list event),
                (ticks w < k)%nat
                /\ seg = Print (progress_line (Z.of_nat (length lines))
                                  (Z.of_nat i)
                                  (clock w k - clock w (ticks w))) :: ev
                /\ progress_reports ev = []
                /\ generations ev <> []).
Proof.
  destruct (translate_one_file_returns self lines w)
    as (outs & segs & closing & w' & (Hrun & Htr & _) & Hpc & _ & Hproc).
  destruct (lines_processed_lookup _ _ _ _ _ _ _ Hproc) as (_ & Hlen & Hat).
  exists outs, segs, closing, w'.
  split; [exact Hrun|]. split; [exact Htr|]. split; [exact Hpc|].
  split; [exact Hlen|].
  intros i line Hi.
  destruct (Hat i line Hi) as (out & seg & _ & Hs & Hstep).
  exists seg. split; [exact Hs|]. unfold line_step in Hstep. split.
  - intros Hb. apply truthy_false in Hb. rewrite Hb in Hstep.
    now destruct Hstep.
  - intros Hb. apply truthy_true in Hb. rewrite Hb in Hstep.
    destruct Hstep as (ctx & r & w1 & w2 & k & ev & _ & _ & _ & _ & Hk & -> & Hp & Hg).
    exists k, ev. now repeat split.
Qed.

End FileClaims.

(** The percentage is the floor of [index * 100 / total]. *)
Fact progress_percent_is_floor (i total : Z) :
  0 < total ->
  progress_percent i total * total <= i * 100
  < (progress_percent i total + 1) * total.
Proof.
  intros H. unfold progress_percent.
  pose proof (Z.mul_div_le (i * 100) total H).
  pose proof (Z.mul_succ_div_gt (i * 100) total H). lia.
Qed.

Fact progress_eta_first_line (elapsed : float) (total : Z) :
  progress_eta elapsed 0 total = 0%float.
Proof. reflexivity. Qed.

(** C8, as stated, fails. On a file of one blank line the orchestrator
    processes the line and prints no progress report at all; on a file of
    one line of text the report is the first event, before the first call
    of the model, and none follows the last call. *)
Lemma progress_not_after_each_line :
  (let run := translate_one_file Sample.workflow [NL] (Stub.world []) in
   fst run = Ok [NL] /\ progress_reports (trace (snd run)) = [])
  /\
  (let run := translate_one_file Sample.workflow [lit "ここ" ++ NL]
                (Stub.world [lit "a"; lit "b"]) in
   fst run = Ok [lit "b" ++ NL]
   /\ exists ev,
       trace (snd run)
       = Print (progress_line 1 0 (1 - 0)) :: ev
       /\ progress_reports ev = []
       /\ length (generations ev) = 2%nat).
Proof.
  split.
  - vm_compute. split; reflexivity.
  - split; [vm_compute; reflexivity|].
    eexists. split; [vm_compute; reflexivity|].
    split; vm_compute; reflexivity.
Qed.

(** End to end: three lines, the second blank. *)
Example three_lines_end_to_end :
  fst (translate_one_file Sample.workflow
         [lit "Hello" ++ NL; NL; lit "World" ++ NL]
         (Stub.world [lit "Привет"; lit "Привет!"; lit "Мир"; lit "Мир!"]))
  = Ok [lit "Привет!" ++ NL; NL; lit "Мир!" ++ NL].
Proof. vm_compute. reflexivity. Qed.

(** Outside [translate_one_file] the progress record is empty, and the
    first line of text raises [KeyError]. *)
Example segregate_without_file_data :
  fst (_segregate_and_translate_lines Sample.workflow [lit "Hello" ++ NL]
         (Stub.world []))
  = Raise (KeyError (lit "start_file_translation")).
Proof. vm_compute. reflexivity. Qed.

(** * Further properties *)

(** ** The retry wrapper, continued *)

Section LlmMore.
Context {B : Backend}.

Lemma strip_head (s : str) (c : N) (t : str) :
  strip s = c :: t -> isspace c = false.
Proof.
  unfold strip. destruct (lstrip s) as [|c' t'] eqn:E; [discriminate|].
  pose proof (lstrip_head _ _ _ E) as Hc.
  rewrite (rstrip_cons _ _ Hc). now intros [= <- _].
Qed.

Lemma strip_fixed_cons (c : N) (t : str) :
  isspace c = false -> strip (c :: t) = c :: rstrip t.
Proof.
  intros H. unfold strip. now rewrite (lstrip_fixed _ _ H), (rstrip_cons _ _ H).
Qed.



Lemma retry_result_not_nil (answers : list str) : retry_result answers <> [].
Proof.
  induction answers as [|a rest IH]; simpl; [discriminate|].
  destruct (truthy (clean a)) eqn:E; [now apply truthy_true | exact IH].
Qed.

Lemma retry_result_stripped (answers : list str) :
  strip (retry_result answers) = retry_result answers.
Proof.
  induction answers as [|a rest IH]; simpl; [reflexivity|].
  destruct (truthy (clean a)); [apply strip_idem | exact IH].
Qed.



(** X1. Whatever the model answers, [generate_with_retry] returns a text
    that is not empty, has no line feed, and has no white space at either
    end. *)
Theorem generate_with_retry_result_is_clean prompt mt t (retry_count : Z)
    name w :
  exists (r : str) (w' : World),
    generate_with_retry prompt mt t retry_count name w = (Ok r, w')
    /\ r <> [] /\ ~ In LF r /\ strip r = r.
Proof.
  unfold generate_with_retry.
  destruct (retry_loop_returns (Z.to_nat retry_count) 0 prompt mt t name w)
    as (answers & w' & (Hrun & _) & _).
  exists (retry_result answers), w'. split; [exact Hrun|].
  split; [apply retry_result_not_nil|].
  split; [apply retry_result_no_LF | apply retry_result_stripped].
Qed.




(** X4. With a [retry_count] of zero or less the model is not called at
    all: the sentinel is returned and nothing else happens. *)
Theorem retry_count_not_positive prompt mt t (retry_count : Z) name w :
  retry_count <= 0 ->
  generate_with_retry prompt mt t retry_count name w
  = (Ok (lit "no response from llm"), w).
Proof.
  intros H. unfold generate_with_retry.
  replace (Z.to_nat retry_count) with O by lia. reflexivity.
Qed.

End LlmMore.

Lemma retry_count_not_positive_witness :
  generate_with_retry (lit "p") 256 DEFAULT_TEMPERATURE 0 (lit "x")
    (Stub.world [lit "a"])
  = (Ok (lit "no response from llm"), Stub.world [lit "a"]).
Proof.
  apply (retry_count_not_positive (B := Stub.scripted)). lia.
Defined.

Example stacked_markers_two :
  stacked_markers 2 (lit "p")
  = lit "Попытка номер 2" ++ NL ++ lit "Попытка номер 1" ++ NL ++ lit "p".
Proof. vm_compute. reflexivity. Qed.

(** Blank lines in front of the text are stripped by [generate_response]
    before the first line is taken: no retry. *)
Example leading_blank_lines_are_no_failure :
  let run := generate_with_retry (lit "p") 256 DEFAULT_TEMPERATURE 10 (lit "x")
               (Stub.world [NL ++ lit " " ++ NL ++ lit "Привет" ++ NL ++ lit "junk"]) in
  fst run = Ok (lit "Привет") /\ length (generations (trace (snd run))) = 1%nat.
Proof. vm_compute. split; reflexivity. Qed.

(** ** Printing the prompts changes nothing else *)

Section PrintsOnly.
Context {B : Backend}.

Lemma same_run_refl (w : World) : same_run w w.
Proof. now repeat split. Qed.

Lemma same_run_sym (w1 w2 : World) : same_run w1 w2 -> same_run w2 w1.
Proof. intros (? & ? & ? & ?). now repeat split. Qed.

Lemma same_run_trans (w1 w2 w3 : World) :
  same_run w1 w2 -> same_run w2 w3 -> same_run w1 w3.
Proof.
  intros (? & ? & ? & ?) (? & ? & ? & ?). repeat split; congruence.
Qed.

Lemma agree_ret {A} (a : A) : agree (ret a) (ret a).
Proof. intros w1 w2 H. now split. Qed.

Lemma agree_bind {A C} (m1 m2 : M A) (k1 k2 : A -> M C) :
  agree m1 m2 -> (forall a, agree (k1 a) (k2 a)) ->
  agree (bind m1 k1) (bind m2 k2).
Proof.
  intros Hm Hk w1 w2 H. unfold bind.
  destruct (Hm w1 w2 H) as [Hr Hw].
  destruct (m1 w1) as [[a1|e1] w1'], (m2 w2) as [[a2|e2] w2'];
    simpl in Hr, Hw; try discriminate.
  - injection Hr as <-. now apply Hk.
  - injection Hr as <-. split; [reflexivity | exact Hw].
Qed.

Lemma silent_ret : silent (ret tt).
Proof. intros w. split; [reflexivity | apply same_run_refl]. Qed.

Lemma silent_print (line : list piece) : silent (print line).
Proof.
  intros w. split; [reflexivity|]. unfold print, same_run. simpl.
  repeat split. rewrite generations_app. simpl. apply app_nil_r.
Qed.

Lemma silent_bind (m1 m2 : M unit) :
  silent m1 -> silent m2 -> silent (bind m1 (fun _ => m2)).
Proof.
  intros H1 H2 w. unfold bind. destruct (H1 w) as [Hr Hw].
  destruct (m1 w) as [[[]|e] w1]; simpl in Hr, Hw; [|discriminate].
  destruct (H2 w1) as [Hr2 Hw2]. split; [exact Hr2|].
  eapply same_run_trans; eassumption.
Qed.

Lemma agree_silent (m1 m2 : M unit) : silent m1 -> silent m2 -> agree m1 m2.
Proof.
  intros H1 H2 w1 w2 H. destruct (H1 w1) as [-> Hw1], (H2 w2) as [-> Hw2].
  split; [reflexivity|].
  eapply same_run_trans; [exact Hw1|].
  eapply same_run_trans; [exact H|]. now apply same_run_sym.
Qed.

Lemma silent_print_prompt (self : TranslateWorkflow) (prompt label : str) :
  silent (_print_prompt self prompt label).
Proof.
  unfold _print_prompt. destruct (show_prompt self); [|apply silent_ret].
  apply silent_bind; [apply silent_print|].
  apply silent_bind; apply silent_print.
Qed.

Lemma agree_time : agree time_time time_time.
Proof.
  intros w1 w2 (Hm & Hc & Hk & Hg). unfold time_time, same_run. simpl.
  rewrite Hc, Hk. now repeat split.
Qed.

Lemma agree_generate (prompt : str) (mt : Z) (t : float) :
  agree (generate_response prompt mt t) (generate_response prompt mt t).
Proof.
  intros w1 w2 (Hm & Hc & Hk & Hg). unfold generate_response. rewrite Hm.
  destruct (model_generate prompt mt t (model w2)) as [raw m'].
  unfold same_run. simpl. rewrite !generations_app, Hg. now repeat split.
Qed.

Lemma agree_retry_loop n i prompt mt t (name : str) :
  agree (retry_loop n i prompt mt t name) (retry_loop n i prompt mt t name).
Proof.
  revert i prompt. induction n as [|n IH]; intros i prompt; [apply agree_ret|].
  cbn [retry_loop]. apply agree_bind; [apply agree_generate|]. intros raw.
  apply agree_bind; [apply agree_silent; apply silent_print|]. intros _.
  destruct (truthy _); [apply agree_ret | apply IH].
Qed.

Lemma agree_edit (self1 self2 : TranslateWorkflow) (line : str) :
  max_tokens self1 = max_tokens self2 ->
  temperature self1 = temperature self2 ->
  agree (_edit_with_llm self1 line) (_edit_with_llm self2 line).
Proof.
  intros Hm Ht. unfold _edit_with_llm, generate_with_retry. rewrite Hm, Ht.
  apply agree_bind; [apply agree_silent; apply silent_print_prompt|].
  intros _. apply agree_retry_loop.
Qed.

Lemma agree_translate (self1 self2 : TranslateWorkflow) (line context : str) :
  max_tokens self1 = max_tokens self2 ->
  temperature self1 = temperature self2 ->
  agree (_translate_with_llm self1 line context)
        (_translate_with_llm self2 line context).
Proof.
  intros Hm Ht. unfold _translate_with_llm, generate_with_retry.
  apply agree_bind; [apply agree_silent; apply silent_print|]. intros _.
  apply agree_bind; [apply agree_silent; apply silent_print_prompt|].
  intros _. rewrite Hm, Ht.
  apply agree_bind; [apply agree_retry_loop|]. intros raw.
  now apply agree_edit.
Qed.

(** X5. [show_prompt] changes what is printed and nothing else: two
    workflows with the same [max_tokens] and [temperature], started in
    worlds that differ at most in what was printed, return the same result
    after the same calls of the model, and leave the model and the clock
    in the same state. *)
Theorem show_prompt_only_prints (self1 self2 : TranslateWorkflow)
    (line context : str) (w1 w2 : World) :
  max_tokens self1 = max_tokens self2 ->
  temperature self1 = temperature self2 ->
  same_run w1 w2 ->
  fst (run_translate self1 line context w1)
  = fst (run_translate self2 line context w2)
  /\ same_run (snd (run_translate self1 line context w1))
              (snd (run_translate self2 line context w2)).
Proof.
  intros Hm Ht. revert w1 w2.
  change (agree (run_translate self1 line context)
                (run_translate self2 line context)).
  unfold run_translate.
  apply agree_bind; [apply agree_time|]. intros start.
  apply agree_bind; [now apply agree_translate|]. intros translated.
  apply agree_bind; [apply agree_time|]. intros now.
  apply agree_bind; [apply agree_silent; apply silent_print|]. intros _.
  apply agree_ret.
Qed.

End PrintsOnly.

Lemma show_prompt_only_prints_witness :
  fst (run_translate (TranslateWorkflow_init true) (lit "ここ") []
         (Stub.world [lit "a"; lit "b"]))
  = fst (run_translate (TranslateWorkflow_init false) (lit "ここ") []
           (Stub.world [lit "a"; lit "b"])).
Proof.
  refine (proj1 (show_prompt_only_prints (B := Stub.scripted)
                   (TranslateWorkflow_init true) (TranslateWorkflow_init false)
                   (lit "ここ") [] (Stub.world [lit "a"; lit "b"])
                   (Stub.world [lit "a"; lit "b"]) _ _ _)).
  - reflexivity.
  - reflexivity.
  - repeat split; reflexivity.
Defined.

(** ** The orchestrator, continued *)

Section FileMore.
Context {B : Backend}.
Implicit Types (self : FileWorkflow) (w : World) (lines : list str).

Lemma translate_lines_from_blank self (i : Z) (blanks more acc : list str) w :
  Forall (fun line => strip line = []) blanks ->
  translate_lines_from self i (blanks ++ more) acc w
  = translate_lines_from self (i + Z.of_nat (length blanks)) more
                         (acc ++ blanks) w.
Proof.
  intros H. revert i acc. induction H as [|line blanks Hb _ IH]; intros i acc.
  - simpl. now rewrite Z.add_0_r, app_nil_r.
  - cbn [app translate_lines_from]. rewrite Hb. cbn [truthy].
    rewrite IH. f_equal; [simpl length; lia | now rewrite <- app_assoc].
Qed.

(** X6. A file of blank lines goes through [_segregate_and_translate_lines]
    unchanged, and nothing else happens: no call of the model, no output, no
    reading of the clock, and no use of the progress record, which may be
    empty. *)
Theorem blank_lines_pass_untouched self lines w :
  Forall (fun line => strip line = []) lines ->
  _segregate_and_translate_lines self lines w = (Ok lines, w).
Proof.
  intros H. unfold _segregate_and_translate_lines.
  rewrite <- (app_nil_r lines) at 1.
  rewrite (translate_lines_from_blank self 0 lines [] [] w H). reflexivity.
Qed.

(** X7. On a workflow whose progress record was not filled,
    [_segregate_and_translate_lines] raises [KeyError] for the key
    [start_file_translation] at the first line that is not blank: the lines
    before it are lost with the result, nothing was printed and the model
    was not called. *)
Theorem segregate_needs_progress_record self
    (blanks : list str) (line : str) (rest : list str) w :
  start_file_translation (file_data self) = None ->
  Forall (fun l => strip l = []) blanks ->
  strip line <> [] ->
  exists w',
    _segregate_and_translate_lines self (blanks ++ line :: rest) w
    = (Raise (KeyError (lit "start_file_translation")), w')
    /\ trace w' = trace w /\ model w' = model w.
Proof.
  intros Hs Hb Hl. unfold _segregate_and_translate_lines.
  rewrite (translate_lines_from_blank self 0 blanks (line :: rest) [] w Hb).
  cbn [translate_lines_from]. apply truthy_true in Hl. rewrite Hl.
  unfold bind at 1. unfold _translate_line, bind at 1.
  unfold _print_progress, bind at 1. unfold time_time at 1.
  unfold bind at 1. rewrite Hs. cbn [file_data_get raise].
  eexists. split; [reflexivity|]. now split.
Qed.

Lemma translate_line_kag_disabled (self1 self2 : FileWorkflow)
    (i : Z) (line : str) w :
  kag_enabled self1 = false -> kag_enabled self2 = false ->
  translate self1 = translate self2 -> file_data self1 = file_data self2 ->
  _translate_line self1 i line w = _translate_line self2 i line w.
Proof.
  intros H1 H2 Ht Hd. unfold _translate_line, _print_progress.
  now rewrite H1, H2, Ht, Hd.
Qed.

Lemma translate_lines_from_kag_disabled (self1 self2 : FileWorkflow)
    (i : Z) (rest acc : list str) w :
  kag_enabled self1 = false -> kag_enabled self2 = false ->
  translate self1 = translate self2 -> file_data self1 = file_data self2 ->
  translate_lines_from self1 i rest acc w
  = translate_lines_from self2 i rest acc w.
Proof.
  intros H1 H2 Ht Hd. revert i acc w.
  induction rest as [|line rest IH]; intros i acc w; [reflexivity|].
  cbn [translate_lines_from]. destruct (truthy (strip line)); [|apply IH].
  unfold bind.
  rewrite (translate_line_kag_disabled self1 self2 i line w H1 H2 Ht Hd).
  destruct (_translate_line self2 i line w) as [[r|e] w1];
    [apply IH | reflexivity].
Qed.

(** X8. With [kag_enabled] off the context builder is never consulted: the
    whole run of [translate_one_file] is the same whatever the window size,
    the Name Dictionary and the Speaker Database are. *)
Theorem kag_unused_when_disabled self (k : KagWorkflow) lines w :
  kag_enabled self = false ->
  translate_one_file (with_kag self k) lines w = translate_one_file self lines w.
Proof.
  intros H. unfold translate_one_file, _segregate_and_translate_lines.
  unfold bind at 1. unfold bind at 6.
  destruct (time_time w) as [[start|e] w1]; [|reflexivity].
  unfold bind at 1. unfold bind at 5.
  rewrite (translate_lines_from_kag_disabled
             (with_file_data (with_kag self k)
                {| start_file_translation := Some start;
                   all_lines := Some lines;
                   all_lines_len := Some (Z.of_nat (length lines)) |})
             (with_file_data self
                {| start_file_translation := Some start;
                   all_lines := Some lines;
                   all_lines_len := Some (Z.of_nat (length lines)) |})
             0 lines [] w1 H H eq_refl eq_refl).
  reflexivity.
Qed.


End FileMore.

Lemma blank_lines_pass_untouched_witness :
  _segregate_and_translate_lines Sample.workflow
    [NL; lit "  " ++ NL; [12288%N]] (Stub.world [lit "a"])
  = (Ok [NL; lit "  " ++ NL; [12288%N]], Stub.world [lit "a"]).
Proof.
  apply (blank_lines_pass_untouched (B := Stub.scripted)).
  repeat constructor.
Defined.

Lemma segregate_needs_progress_record_witness :
  exists w',
    _segregate_and_translate_lines Sample.workflow
      ([NL] ++ (lit "ここ" ++ NL) :: [NL]) (Stub.world [lit "a"])
    = (Raise (KeyError (lit "start_file_translation")), w')
    /\ trace w' = trace (Stub.world [lit "a"])
    /\ model w' = model (Stub.world [lit "a"]).
Proof.
  apply (segregate_needs_progress_record (B := Stub.scripted)).
  - reflexivity.
  - repeat constructor.
  - vm_compute. discriminate.
Defined.

Lemma kag_unused_when_disabled_witness :
  translate_one_file
    (with_kag (FileWorkflow_init Sample.names ∅ false false)
              Sample.kag_negative_window)
    Sample.script (Stub.world [lit "a"; lit "b"])
  = translate_one_file (FileWorkflow_init Sample.names ∅ false false)
      Sample.script (Stub.world [lit "a"; lit "b"]).
Proof.
  apply (kag_unused_when_disabled (B := Stub.scripted)). reflexivity.
Defined.

(** ** The calls of the model over a file *)

Section FileCalls.
Context {B : Backend}.
Implicit Types (self : FileWorkflow) (w : World) (lines : list str).



Lemma translate_line_calls self lines (i : Z) (line : str) w (start : float) :
  start_file_translation (file_data self) = Some start ->
  all_lines (file_data self) = Some lines ->
  all_lines_len (file_data self) = Some (Z.of_nat (length lines)) ->
  0 <= i < Z.of_nat (length lines) ->
  exists (ctx : str) (answers1 answers2 : list str) (ev : list event)
         (w' : World),
    context_for self lines i = Ok ctx
    /\ returns (_translate_line self i line) w (retry_result answers2) ev w'
    /\ generations ev
       = attempts 0 (translate_prompt ctx (strip line))
                  (max_tokens (translate self))
                  (temperature (translate self)) answers1
         ++ attempts 0 (edit_prompt (retry_result answers1))
                     (max_tokens (translate self))
                     (temperature (translate self)) answers2
    /\ retry_shape 10 answers1 /\ retry_shape 10 answers2.
Proof.
  intros Hs Hl Ht Hi.
  destruct (print_progress_returns self i w start _ Hs Ht) as (w1 & H1);
    [lia | lia |].
  destruct (context_for_in_range self lines i Hi) as (ctx & Hctx).
  destruct (run_translate_returns (translate self) line ctx w1)
    as (answers1 & answers2 & ev & w2 & H2 & Hg & _ & Hs1 & Hs2).
  exists ctx, answers1, answers2. eexists. exists w2.
  split; [exact Hctx|]. split; [|split; [|split; assumption]].
  - unfold _translate_line.
    eapply returns_bind; [exact H1|].
    eapply (returns_bind _ _ _ _ [] w1); [|exact H2].
    unfold context_for in Hctx. destruct (kag_enabled self).
    + unfold file_data_get. rewrite Hl. unfold bind, ret, lift, returns.
      rewrite Hctx, app_nil_r. repeat split. lia.
    + injection Hctx as <-. apply returns_ret.
  - rewrite generations_app. exact Hg.
Qed.

Lemma translate_lines_from_calls self lines (start : float) :
  start_file_translation (file_data self) = Some start ->
  all_lines (file_data self) = Some lines ->
  all_lines_len (file_data self) = Some (Z.of_nat (length lines)) ->
  forall (rest pre acc : list str) w,
    lines = pre ++ rest ->
    exists (outs : list str) (callss : list (list event)) (ev : list event)
           (w' : World),
      returns (translate_lines_from self (Z.of_nat (length pre)) rest acc) w
              (acc ++ outs) ev w'
      /\ generations ev = concat callss
      /\ lines_called self lines (Z.of_nat (length pre)) rest outs callss.
Proof.
  intros Hs Hl Ht. induction rest as [|line rest IH]; intros pre acc w E.
  - exists [], [], [], w. rewrite app_nil_r.
    split; [apply returns_ret | split; [reflexivity | constructor]].
  - assert (lines = (pre ++ [line]) ++ rest) as E'
        by now rewrite <- app_assoc.
    assert (Z.of_nat (length pre) + 1 = Z.of_nat (length (pre ++ [line]))) as Hi
        by (rewrite length_app; simpl; lia).
    cbn [translate_lines_from]. destruct (truthy (strip line)) eqn:Hb.
    + destruct (translate_line_calls self lines (Z.of_nat (length pre))
                  line w _ Hs Hl Ht)
        as (ctx & a1 & a2 & ev1 & w1 & Hctx & Hret & Hg & Hs1 & Hs2).
      { rewrite E, length_app. simpl. lia. }
      destruct (IH (pre ++ [line]) (acc ++ [retry_result a2 ++ NL]) w1 E')
        as (outs & callss & ev2 & w2 & Hrest & Hg2 & Hcalled).
      exists ((retry_result a2 ++ NL) :: outs), (generations ev1 :: callss),
             (ev1 ++ ev2), w2.
      split; [|split].
      * replace (acc ++ (retry_result a2 ++ NL) :: outs)
          with ((acc ++ [retry_result a2 ++ NL]) ++ outs)
          by now rewrite <- app_assoc.
        eapply returns_bind; [exact Hret|]. rewrite Hi. exact Hrest.
      * rewrite generations_app, Hg2. reflexivity.
      * constructor; [|rewrite Hi; exact Hcalled].
        unfold line_calls. rewrite Hb. exists ctx, a1, a2.
        split; [exact Hctx|]. split; [exact Hg|]. split; [exact Hs1|].
        split; [exact Hs2 | reflexivity].
    + destruct (IH (pre ++ [line]) (acc ++ [line]) w E')
        as (outs & callss & ev2 & w2 & Hrest & Hg2 & Hcalled).
      exists (line :: outs), ([] :: callss), ev2, w2. split; [|split].
      * replace (acc ++ line :: outs) with ((acc ++ [line]) ++ outs)
          by now rewrite <- app_assoc.
        rewrite Hi. exact Hrest.
      * exact Hg2.
      * constructor; [|rewrite Hi; exact Hcalled].
        unfold line_calls. rewrite Hb. now split.
Qed.

Lemma lines_called_file_data self (d : FileData) lines
    (i : Z) (rest outs : list str) (callss : list (list event)) :
  lines_called (with_file_data self d) lines i rest outs callss ->
  lines_called self lines i rest outs callss.
Proof.
  induction 1 as [i|i line rest out outs calls callss Hstep _ IH];
    constructor; [exact Hstep | exact IH].
Qed.

Lemma translate_one_file_calls self lines w :
  exists (outs : list str) (callss : list (list event)) (w' : World),
    translate_one_file self lines w = (Ok outs, w')
    /\ generations (trace w') = generations (trace w) ++ concat callss
    /\ lines_called self lines 0 lines outs callss.
Proof.
  destruct (returns_time w) as (w1 & H1 & _).
  pose (self' := with_file_data self
                   {| start_file_translation := Some (clock w (ticks w));
                      all_lines := Some lines;
                      all_lines_len := Some (Z.of_nat (length lines)) |}).
  destruct (translate_lines_from_calls self' lines (clock w (ticks w))
              eq_refl eq_refl eq_refl lines [] [] w1 eq_refl)
    as (outs & callss & ev & w2 & H2 & Hg & Hcalled).
  destruct (returns_print [Txt (lit "Translation done successfully! (100%)")] w2)
    as (w3 & H3 & _).
  destruct (returns_time w3) as (w4 & H4 & _).
  destruct (returns_print
              [Txt (lit "done in ");
               Fix1 ((clock w3 (ticks w3) - clock w (ticks w))
                     / float_of_int 60);
               Txt (lit " min")] w4) as (w5 & H5 & _).
  assert (exists closing,
             returns (translate_one_file self lines) w outs
                     ([] ++ (ev ++ closing)) w5
             /\ generations closing = []) as (closing & Hret & Hgc).
  { eexists. split.
    - unfold translate_one_file.
      eapply returns_bind; [exact H1|]. fold self'.
      eapply returns_bind; [exact H2|].
      eapply returns_bind; [exact H3|].
      eapply returns_bind; [exact H4|].
      unfold file_data_get. cbn.
      eapply (returns_bind (ret _)); [apply returns_ret|].
      eapply returns_bind; [exact H5 | apply returns_ret].
    - reflexivity. }
  exists outs, callss, w5. destruct Hret as (Hrun & Htr & _).
  split; [exact Hrun|]. split.
  - rewrite Htr. cbn [app]. rewrite !generations_app, Hg, Hgc.
    now rewrite app_nil_r.
  - exact (lines_called_file_data _ _ _ _ _ _ _ Hcalled).
Qed.

Lemma lines_called_lookup self lines (i0 : Z)
    (rest outs : list str) (callss : list (list event)) :
  lines_called self lines i0 rest outs callss ->
  length outs = length rest /\ length callss = length rest
  /\ forall (j : nat) (line : str),
      rest !! j = Some line ->
      exists out calls,
        outs !! j = Some out /\ callss !! j = Some calls
        /\ line_calls self lines (i0 + Z.of_nat j) line out calls.
Proof.
  induction 1 as [i|i line rest out outs calls callss Hstep _ (Hlo & Hls & IH)].
  - repeat split; intros j line Hj; discriminate.
  - split; [simpl; lia|]. split; [simpl; lia|].
    intros [|j] l Hj; simpl in Hj.
    + injection Hj as <-. exists out, calls. rewrite Z.add_0_r.
      now repeat split.
    + destruct (IH j l Hj) as (o & c & Ho & Hc & Hst).
      exists o, c. repeat split; auto.
      replace (i + Z.of_nat (S j)) with (i + 1 + Z.of_nat j) by lia.
      exact Hst.
Qed.




Lemma strip_result_line (r : str) :
  r <> [] -> strip r = r -> strip (r ++ NL) <> [].
Proof.
  intros Hn Hs. destruct r as [|c t]; [congruence|].
  pose proof (strip_head _ _ _ Hs) as Hc.
  change ((c :: t) ++ NL) with (c :: (t ++ NL)).
  rewrite (strip_fixed_cons _ _ Hc). discriminate.
Qed.

(** X12. Blank stays blank and text stays text: an output line is blank
    exactly when the input line at the same index is, so translating the
    output again works on the same lines. *)
Theorem blank_lines_are_preserved self lines w :
  exists (outs : list str) (w' : World),
    translate_one_file self lines w = (Ok outs, w')
    /\ forall (i : nat) (line out : str),
        lines !! i = Some line -> outs !! i = Some out ->
        (strip out = [] <-> strip line = []).
Proof.
  destruct (translate_one_file_calls self lines w)
    as (outs & callss & w' & Hrun & _ & Hcalled).
  destruct (lines_called_lookup _ _ _ _ _ _ Hcalled) as (_ & _ & Hat).
  exists outs, w'. split; [exact Hrun|].
  intros i line out Hi Ho.
  destruct (Hat i line Hi) as (out' & calls & Ho' & _ & Hstep).
  assert (out' = out) as -> by congruence.
  unfold line_calls in Hstep. destruct (truthy (strip line)) eqn:Hb.
  - destruct Hstep as (ctx & a1 & a2 & _ & _ & _ & _ & ->).
    apply truthy_true in Hb. split; [|contradiction].
    intros H. exfalso. revert H.
    apply strip_result_line;
      [apply retry_result_not_nil | apply retry_result_stripped].
  - destruct Hstep as [-> _]. apply truthy_false in Hb. now split.
Qed.

End FileCalls.

Example model_calls_example :
  let run := translate_one_file Sample.workflow Sample.script
               (Stub.world [[]; lit "a"; lit "b"]) in
  nonblank_count Sample.script = 3%nat
  /\ length (generations (trace (snd run))) = 43%nat.
Proof. vm_compute. split; reflexivity. Qed.

(** ** The context builder, continued *)

Section KagMore.
Implicit Types (self : KagWorkflow) (all_lines : list str) (line_num : Z).

Lemma getitem_nth all_lines line_num :
  0 <= line_num < Z.of_nat (length all_lines) ->
  getitem all_lines line_num = Ok (nth (Z.to_nat line_num) all_lines []).
Proof.
  intros H. destruct (getitem_in_range all_lines line_num H) as (x & Hx & ->).
  now rewrite (nth_lookup_Some _ _ [] _ Hx).
Qed.

Lemma prev_line_of_nth all_lines line_num :
  0 <= line_num < Z.of_nat (length all_lines) ->
  prev_line_of all_lines line_num
  = Ok (if line_num >? 0
        then strip (nth (Z.to_nat (line_num - 1)) all_lines [])
        else []).
Proof.
  intros H. unfold prev_line_of.
  destruct (Z.gtb_spec line_num 0); [|reflexivity].
  now rewrite getitem_nth by lia.
Qed.

Lemma prev_line_of_stripped all_lines line_num (prev : str) :
  prev_line_of all_lines line_num = Ok prev -> strip prev = prev.
Proof.
  unfold prev_line_of. destruct (line_num >? 0).
  - destruct (getitem all_lines (line_num - 1)) as [x|e]; simpl;
      [|discriminate].
    intros [= <-]. apply strip_idem.
  - intros [= <-]. reflexivity.
Qed.

Lemma text_around_seq self all_lines line_num :
  0 <= line_num < Z.of_nat (length all_lines) ->
  0 <= window_size self ->
  _build_context_text_around self all_lines line_num
  = SCENE_HEADER
      ++ concat
           (map (fun j => nth j all_lines [])
                (seq (Z.to_nat (Z.max 0 (line_num - window_size self)))
                     (Z.to_nat (Z.min (Z.of_nat (length all_lines))
                                      (line_num + window_size self + 1))
                      - Z.to_nat (Z.max 0 (line_num - window_size self))))).
Proof.
  intros Hi Hw. unfold _build_context_text_around.
  rewrite slice_in_range by lia.
  rewrite join_empty_sep, (take_drop_seq []) by lia.
  reflexivity.
Qed.

Lemma Substring_concat (x : str) (l : list str) :
  In x l -> Substring x (concat l).
Proof.
  intros H. apply in_split in H as (l1 & l2 & ->).
  exists (concat l1), (concat l2). now rewrite concat_app.
Qed.

Lemma Substring_join (sep x : str) (l : list str) :
  In x l -> Substring x (join sep l).
Proof.
  induction l as [|p ps IH]; [intros []|].
  intros [->|Hin].
  - destruct ps as [|q ps'].
    + exists [], []. simpl. now rewrite app_nil_r.
    + exists [], (sep ++ join sep (q :: ps')). reflexivity.
  - destruct ps as [|q ps']; [destruct Hin|].
    destruct (IH Hin) as (pre & post & E).
    exists (p ++ sep ++ pre), post.
    change (join sep (p :: q :: ps')) with (p ++ sep ++ join sep (q :: ps')).
    rewrite E. now rewrite <- !app_assoc.
Qed.

Lemma Substring_inside (x s a b : str) :
  Substring x s -> Substring x (a ++ s ++ b).
Proof.
  intros (pre & post & ->). exists (a ++ pre), (post ++ b).
  now rewrite <- !app_assoc.
Qed.

(** X13. With a window size that is not negative, the context of a line
    always contains that line itself, verbatim. *)
Theorem context_contains_target_line self all_lines line_num :
  0 <= line_num < Z.of_nat (length all_lines) ->
  0 <= window_size self ->
  exists (line ctx : str),
    all_lines !! Z.to_nat line_num = Some line
    /\ build_context self all_lines line_num = Ok ctx
    /\ Substring line ctx.
Proof.
  intros Hi Hw.
  destruct (build_context_in_range self all_lines line_num Hi)
    as (line & prev & Hl & _ & Hctx).
  exists line. eexists. split; [exact Hl|]. split; [exact Hctx|].
  rewrite (text_around_seq self all_lines line_num Hi Hw).
  rewrite <- (app_assoc SCENE_HEADER), (app_assoc NL SCENE_HEADER).
  apply Substring_inside, Substring_concat.
  apply in_map_iff. exists (Z.to_nat line_num).
  split; [exact (nth_lookup_Some _ _ [] _ Hl)|].
  apply in_seq. lia.
Qed.

(** X14. The context is local. With a window size of at least 1, two
    scripts of the same length that agree on the window around the target
    index give the same context: the lines outside
    [[idx - w, idx + w]] are never looked at. *)
Theorem build_context_is_local self (lines1 lines2 : list str) line_num :
  length lines1 = length lines2 ->
  0 <= line_num < Z.of_nat (length lines1) ->
  1 <= window_size self ->
  (forall j : nat,
      line_num - window_size self <= Z.of_nat j <= line_num + window_size self ->
      nth j lines1 [] = nth j lines2 []) ->
  build_context self lines1 line_num = build_context self lines2 line_num.
Proof.
  intros Hlen Hi Hw Hagree.
  assert (0 <= line_num < Z.of_nat (length lines2)) as Hi2 by lia.
  rewrite (build_context_sections self lines1 line_num _ _
             (getitem_nth lines1 line_num Hi)
             (prev_line_of_nth lines1 line_num Hi)).
  rewrite (build_context_sections self lines2 line_num _ _
             (getitem_nth lines2 line_num Hi2)
             (prev_line_of_nth lines2 line_num Hi2)).
  rewrite (text_around_seq self lines1 line_num Hi) by lia.
  rewrite (text_around_seq self lines2 line_num Hi2) by lia.
  rewrite <- Hlen.
  rewrite (Hagree (Z.to_nat line_num)) by lia.
  assert ((if line_num >? 0
           then strip (nth (Z.to_nat (line_num - 1)) lines1 [])
           else [])
          = (if line_num >? 0
             then strip (nth (Z.to_nat (line_num - 1)) lines2 [])
             else [])) as ->.
  { destruct (Z.gtb_spec line_num 0); [|reflexivity].
    now rewrite (Hagree (Z.to_nat (line_num - 1))) by lia. }
  assert (forall (lo n : nat),
             line_num - window_size self <= Z.of_nat lo ->
             Z.of_nat (lo + n) <= line_num + window_size self + 1 ->
             map (fun j => nth j lines1 []) (seq lo n)
             = map (fun j => nth j lines2 []) (seq lo n)) as Hmap.
  { intros lo n Hlo Hhi. apply map_ext_in. intros j Hj.
    apply in_seq in Hj. apply Hagree. lia. }
  rewrite Hmap by lia. reflexivity.
Qed.

(** X15. The speaker lookup key is always a stripped line (or the empty
    string), so an entry of the Speaker Database whose key has white space
    at either end is never found: deleting it changes no context. *)
Theorem unstripped_speaker_keys_never_match self (key : str)
    all_lines line_num :
  strip key <> key ->
  build_context (with_kag_db self (delete key (kag_db self))) all_lines line_num
  = build_context self all_lines line_num.
Proof.
  intros Hk.
  destruct (getitem_Ok_or_IndexError all_lines line_num) as [[line Hl]|Hr].
  - destruct (prev_line_of_total _ _ _ Hl) as [prev Hp].
    rewrite !(build_context_sections _ _ _ _ _ Hl Hp).
    assert (key <> prev) as Hne
        by (intros ->; apply Hk; exact (prev_line_of_stripped _ _ _ Hp)).
    unfold _build_context_kag_description at 1. cbn [with_kag_db kag_db].
    rewrite (lookup_delete_ne _ _ _ Hne). reflexivity.
  - now rewrite !(build_context_raises _ _ _ Hr).
Qed.

(** X16. The empty string is a substring of every line: an entry of the
    Name Dictionary under the empty key is listed for every target line,
    and the names section is then never left out. *)
Theorem empty_name_key_always_listed self (value target : str) :
  NoDup (map fst (names_map self)) ->
  In ([], value) (names_map self) ->
  exists pre post,
    _build_context_names_dict self target
    = NAMES_HEADER ++ pre ++ (lit " = " ++ value) ++ post.
Proof.
  intros Hnd Hin. unfold _build_context_names_dict.
  rewrite (relevant_names_filter self target Hnd).
  assert (In ([], value)
             (List.filter (fun item => contains target (fst item))
                          (names_map self))) as Hf.
  { apply filter_In. split; [exact Hin|]. simpl.
    apply contains_spec. now exists [], target. }
  destruct (List.filter _ (names_map self)) as [|e es] eqn:E; [destruct Hf|].
  destruct (Substring_join NL (lit " = " ++ value)
              (map (fun item => fst item ++ lit " = " ++ snd item) (e :: es)))
    as (pre & post & Hj).
  { apply in_map_iff. exists ([], value). split; [reflexivity | exact Hf]. }
  exists pre, (post ++ NL). rewrite Hj. now rewrite <- !app_assoc.
Qed.

End KagMore.

Lemma context_contains_target_line_witness :
  exists (line ctx : str),
    Sample.script !! Z.to_nat 1 = Some line
    /\ build_context Sample.kag4 Sample.script 1 = Ok ctx
    /\ Substring line ctx.
Proof.
  apply context_contains_target_line.
  - vm_compute. split; [discriminate | reflexivity].
  - vm_compute. discriminate.
Defined.

Lemma build_context_is_local_witness :
  build_context Cases.kag_one_line
    [lit "a" ++ NL; lit "b" ++ NL; lit "c" ++ NL; lit "d" ++ NL] 1
  = build_context Cases.kag_one_line
      [lit "a" ++ NL; lit "b" ++ NL; lit "c" ++ NL; lit "z" ++ NL] 1.
Proof.
  apply build_context_is_local.
  - reflexivity.
  - vm_compute. split; [discriminate | reflexivity].
  - vm_compute. discriminate.
  - intros j Hj. change (window_size Cases.kag_one_line) with 1 in Hj.
    destruct j as [|[|[|j]]]; try reflexivity. lia.
Defined.

Lemma unstripped_speaker_keys_never_match_witness :
  build_context
    (with_kag_db Cases.kag_raw_key
       (delete (lit "[アンナ]" ++ NL) (kag_db Cases.kag_raw_key)))
    Sample.script 1
  = build_context Cases.kag_raw_key Sample.script 1.
Proof.
  apply unstripped_speaker_keys_never_match.
  vm_compute. discriminate.
Defined.

Lemma empty_name_key_always_listed_witness :
  exists pre post,
    _build_context_names_dict Cases.kag_empty_name (lit "静かな夜だった。" ++ NL)
    = NAMES_HEADER ++ pre ++ (lit " = " ++ lit "?") ++ post.
Proof.
  apply empty_name_key_always_listed.
  - apply NoDup_ListNoDup.
    repeat (constructor; [vm_compute; intuition discriminate|]).
    constructor.
  - right. left. reflexivity.
Defined.

(** The key of the database is the raw line, with its line terminator: the
    lookup, made with the stripped line, misses it. *)
Example raw_key_is_missed :
  build_context Cases.kag_raw_key Sample.script 1
  = build_context (with_kag_db Cases.kag_raw_key ∅) Sample.script 1.
Proof. vm_compute. reflexivity. Qed.

Section SpeakerLookup.
Implicit Types (self : KagWorkflow) (all_lines : list str) (line_num : Z).

(** X17. For a line after the first, the speaker is looked up under the
    previous line with the white space at its ends removed: when the
    Speaker Database has that key, the context ends with the direct-speech
    description made of the record's [description] and [gender]; when it
    has not, with the narration default. *)
Theorem speaker_is_keyed_by_stripped_previous_line self all_lines line_num
    (previous : str) :
  0 < line_num < Z.of_nat (length all_lines) ->
  all_lines !! Z.to_nat (line_num - 1) = Some previous ->
  exists body : str,
    build_context self all_lines line_num
    = Ok (body ++ SPEAKER_LABEL
            ++ match kag_db self !! strip previous with
               | Some person =>
                   lit "прямая речь, " ++ description person
                     ++ lit ", пол: " ++ gender person
               | None => NARRATION
               end ++ NL).
Proof.
  intros Hi Hp.
  assert (0 <= line_num < Z.of_nat (length all_lines)) as Hi' by lia.
  rewrite (build_context_sections self all_lines line_num _ _
             (getitem_nth all_lines line_num Hi')
             (prev_line_of_nth all_lines line_num Hi')).
  destruct (Z.gtb_spec line_num 0); [|lia].
  rewrite (nth_lookup_Some _ _ [] _ Hp).
  exists (NL ++ _build_context_text_around self all_lines line_num
             ++ _build_context_names_dict self
                  (nth (Z.to_nat line_num) all_lines [])).
  unfold _build_context_kag_description. now rewrite <- !app_assoc.
Qed.

End SpeakerLookup.

Lemma speaker_is_keyed_by_stripped_previous_line_witness :
  exists body : str,
    build_context Sample.kag4 Sample.script 1
    = Ok (body ++ SPEAKER_LABEL
            ++ (lit "прямая речь, " ++ description Sample.anna
                  ++ lit ", пол: " ++ gender Sample.anna) ++ NL).
Proof.
  refine (speaker_is_keyed_by_stripped_previous_line
            Sample.kag4 Sample.script 1 (lit "[アンナ]" ++ NL) _ _).
  - vm_compute. split; reflexivity.
  - reflexivity.
Defined.
